(** * Media-mix budget allocator (app.py): holiday covariates and allocation table

    A shallow embedding of the two pieces of logic of [src/app.py]:
    - [add_holiday_columns_to_array], which builds the weekly holiday
      indicator matrix of a forecast window and hands it to the fitted
      covariate scaler;
    - [budget_allocator] and the reporting step of the script, which call
      the external optimizer and turn its answer into a currency table.

    Conventions of the embedding.
    - A calendar date is its proleptic Gregorian day number (the value of
      Python's [date.toordinal]); adding days or weeks is addition on [Z].
    - A pandas timestamp is a signed 64-bit count of nanoseconds since
      1970-01-01: building one for a date outside that range raises
      [OutOfBoundsDatetime] ([Timestamp], [week_column]).
    - A Python [str] is a [string]; the labels of the US calendar are ASCII,
      and [lower] is the ASCII case mapping.
    - The insertion-ordered [dict] [holiday_dict] is an association list;
      its values, Python [set]s of dates, are [gset Z].
    - External collaborators (the holiday calendar, the fitted scaler, the
      optimizer) are variables of a section; they either return a value or
      raise, which is the type [result].
    - Line 33 builds a calendar object that is never read; it has no
      counterpart here. *)

From Stdlib Require Import ZArith QArith Ascii String.
From stdpp Require Import gmap strings list sorting.

Local Open Scope Z_scope.

(** ** Python string methods used by the canonicalization *)

Module PyStr.

(** [old] is a prefix of [s] ([s.startswith(old)]). *)
Fixpoint startswith (old s : string) : bool :=
  match old, s with
  | EmptyString, _ => true
  | String _ _, EmptyString => false
  | String a old', String b s' =>
      if decide (a = b) then startswith old' s' else false
  end.

(** [sep in s]. *)
Fixpoint contains (sep s : string) : bool :=
  match s with
  | EmptyString => startswith sep EmptyString
  | String _ s' => startswith sep s || contains sep s'
  end.

(** The character [c] occurs in [s]. *)
Fixpoint has_char (c : ascii) (s : string) : bool :=
  match s with
  | EmptyString => false
  | String b s' => if decide (c = b) then true else has_char c s'
  end.

(** [s.split(sep)[0]]: the part of [s] before the first occurrence of
    [sep], all of [s] when [sep] does not occur. *)
Fixpoint split_head (sep s : string) : string :=
  match s with
  | EmptyString => EmptyString
  | String c s' =>
      if startswith sep s then EmptyString else String c (split_head sep s')
  end.

(** [s.replace(old, new)] for a non-empty [old], as at every call site:
    occurrences are replaced from left to right and do not overlap.
    [skip] counts the characters of a matched occurrence still to drop. *)
Fixpoint replace_from (skip : nat) (old new s : string) : string :=
  match s with
  | EmptyString => EmptyString
  | String c s' =>
      match skip with
      | S k => replace_from k old new s'
      | O =>
          if startswith old s
          then new +:+ replace_from (String.length old - 1) old new s'
          else String c (replace_from 0 old new s')
      end
  end.

Definition replace (old new s : string) : string := replace_from 0 old new s.

(** ASCII [lower]: 'A'..'Z' (65..90) are moved to 'a'..'z'. *)
Definition lower_char (c : ascii) : ascii :=
  let n := nat_of_ascii c in
  if (65 <=? n)%nat && (n <=? 90)%nat then ascii_of_nat (n + 32) else c.

Fixpoint lower (s : string) : string :=
  match s with
  | EmptyString => EmptyString
  | String c s' => String (lower_char c) (lower s')
  end.

End PyStr.

(** ** Canonical holiday identifier (line 41) *)

(** [name.split(' (')[0].replace("'s", "").replace(".", "")
        .replace(" ", "_").lower()] *)
Definition standardized_body (name : string) : string :=
  PyStr.lower
    (PyStr.replace " " "_"
       (PyStr.replace "." ""
          (PyStr.replace "'s" ""
             (PyStr.split_head " (" name)))).

(** [standardized_name = "hldy_" + ...] *)
Definition standardized_name (name : string) : string :=
  "hldy_" +:+ standardized_body name.

(** ** Calendar dates *)

Module Calendar.

Definition is_leap (y : Z) : bool :=
  (y mod 4 =? 0) && (negb (y mod 100 =? 0) || (y mod 400 =? 0)).

(** Number of days before January 1st of year [y]. *)
Definition days_before_year (y : Z) : Z :=
  let p := y - 1 in p * 365 + p / 4 - p / 100 + p / 400.

Definition days_in_month (y m : Z) : Z :=
  if m =? 2 then (if is_leap y then 29 else 28)
  else if (m =? 4) || (m =? 6) || (m =? 9) || (m =? 11) then 30
  else 31.

(** Number of days of year [y] before the first day of month [m]. *)
Definition days_before_month (y m : Z) : Z :=
  foldr (fun k acc => days_in_month y k + acc) 0
        (Z.of_nat <$> seq 1 (Z.to_nat (m - 1))).

(** Day number of the date [y]-[m]-[d] (January 1st of year 1 is day 1). *)
Definition ymd (y m d : Z) : Z :=
  days_before_year y + days_before_month y m + d.

(** Calendar year of a day number, by 400-, 100-, 4- and 1-year cycles. *)
Definition year_of (n : Z) : Z :=
  let n := n - 1 in
  let n400 := n / 146097 in
  let n := n mod 146097 in
  let n100 := n / 36524 in
  let n := n mod 36524 in
  let n4 := n / 1461 in
  let n := n mod 1461 in
  let n1 := n / 365 in
  let year := n400 * 400 + 1 + n100 * 100 + n4 * 4 + n1 in
  if (n1 =? 4) || (n100 =? 4) then year - 1 else year.

(** Day of the week, Monday = 0. *)
Definition weekday (n : Z) : Z := (n + 6) mod 7.

(** [year_of] gives back the year of every date of year [y]. *)
Definition year_round_trip (y : Z) : bool :=
  forallb (fun m =>
             forallb (fun d => year_of (ymd y m d) =? y)
                     (Z.of_nat <$> seq 1 (Z.to_nat (days_in_month y m))))
          (Z.of_nat <$> seq 1 12).

End Calendar.

(** ** pandas timestamps *)

Module Timestamp.

(** Nanoseconds from 1970-01-01 00:00 to the midnight that begins the
    date [d]: the [value] of the timestamp of [d]. *)
Definition value (d : Z) : Z := (d - Calendar.ymd 1970 1 1) * 86400 * 10 ^ 9.

(** The value is a signed 64-bit integer; the least one, [- 2 ^ 63], is
    taken by [NaT]. *)
Definition in_bounds (d : Z) : bool :=
  (- 2 ^ 63 <? value d) && (value d <? 2 ^ 63).

(** The first and the last date whose midnight is a timestamp
    ([in_bounds_spec]); [Timestamp.min] is 1677-09-21 00:12:43.145224193
    and [Timestamp.max] is 2262-04-11 23:47:16.854775807. *)
Definition min_date : Z := Calendar.ymd 1677 9 22.
Definition max_date : Z := Calendar.ymd 2262 4 11.

(** A start date and a horizon all of whose week starts are timestamps:
    no week is asked for, or the start date and the last week start lie
    between [min_date] and [max_date] ([week_column_within],
    [week_column_beyond]). *)
Definition within (end_date : Z) (time_period : nat) : Prop :=
  time_period = 0%nat ∨
  (min_date ≤ end_date ∧ end_date + 7 * Z.of_nat time_period ≤ max_date).

End Timestamp.

(** ** Outcome of a call *)

(** A call returns a value, raises an exception of type [E], or leaves what
    the embedding describes: [Undefined] marks a pandas access to a label the
    frame does not have (a [KeyError] on a read, an enlargement of the frame
    on a write). [holiday_frame_defined] shows the builder never gets there. *)
Inductive result (E A : Type) : Type :=
| Ok (a : A)
| Raise (e : E)
| Undefined.
Arguments Ok {E A} a.
Arguments Raise {E A} e.
Arguments Undefined {E A}.

#[global] Instance result_ret {E} : MRet (result E) := fun _ a => Ok a.
#[global] Instance result_bind {E} : MBind (result E) := fun _ _ k m =>
  match m with
  | Ok a => k a
  | Raise e => Raise e
  | Undefined => Undefined
  end.

(** A pandas step on labels: [None] is the missing label. *)
Definition pandas {E A} (o : option A) : result E A :=
  match o with
  | Some a => Ok a
  | None => Undefined
  end.

(** A loop whose body may fail: [for x in l: acc = f(acc, x)]. *)
Fixpoint for_each {A B} (f : A -> B -> option A) (acc : A) (l : list B) : option A :=
  match l with
  | [] => Some acc
  | x :: l' => acc' ← f acc x; for_each f acc' l'
  end.

(** ** Data frames *)

Module Frame.

(** A frame with the default index 0..n-1: its column labels in order and
    its rows, one cell per column. Timestamps are stored as day numbers. *)
Record DataFrame : Type := mk { columns : list string; rows : list (list Z) }.

(** Position of the label [c] among the columns. *)
Fixpoint get_loc (c : string) (cols : list string) : option nat :=
  match cols with
  | [] => None
  | c' :: cols' => if decide (c = c') then Some 0%nat else S <$> get_loc c cols'
  end.

(** [df[c]] *)
Definition getitem (c : string) (df : DataFrame) : option (list Z) :=
  j ← get_loc c (columns df); mapM (fun r => r !! j) (rows df).

(** [df[c] = v] with a scalar [v]: the column is overwritten when the
    label exists and appended otherwise. *)
Definition setitem (c : string) (v : Z) (df : DataFrame) : DataFrame :=
  match get_loc c (columns df) with
  | Some j => mk (columns df) ((fun r => <[j := v]> r) <$> rows df)
  | None => mk (columns df ++ [c]) ((fun r => r ++ [v]) <$> rows df)
  end.

(** [df.iterrows()]: the index labels with the rows. *)
Definition iterrows (df : DataFrame) : list (nat * list Z) :=
  imap (fun i r => (i, r)) (rows df).

(** [row[c]] for a row of a frame with columns [cols]. *)
Definition row_get (c : string) (cols : list string) (row : list Z) : option Z :=
  j ← get_loc c cols; row !! j.

(** [df.at[i, c] = v] *)
Definition at_set (i : nat) (c : string) (v : Z) (df : DataFrame) : option DataFrame :=
  j ← get_loc c (columns df);
  r ← rows df !! i;
  Some (mk (columns df) (<[i := <[j := v]> r]> (rows df))).

(** [df.at[i, c]] *)
Definition at_get (i : nat) (c : string) (df : DataFrame) : option Z :=
  j ← get_loc c (columns df);
  r ← rows df !! i;
  r !! j.

(** [df.drop(c, axis=1)] *)
Definition drop (c : string) (df : DataFrame) : option DataFrame :=
  j ← get_loc c (columns df);
  Some (mk (delete j (columns df)) (delete j <$> rows df)).

(** [df.to_numpy()] *)
Definition to_numpy (df : DataFrame) : list (list Z) := rows df.

End Frame.

(** ** The holiday dictionary *)

(** Order of Python on the pairs [(date, name)] that [sorted] compares:
    dates first, then names, character by character. *)
Fixpoint str_leb (s t : string) : bool :=
  match s, t with
  | EmptyString, _ => true
  | String _ _, EmptyString => false
  | String a s', String b t' =>
      if (nat_of_ascii a <? nat_of_ascii b)%nat then true
      else if decide (a = b) then str_leb s' t' else false
  end.

Definition item_leb (x y : Z * string) : bool :=
  (x.1 <? y.1) || ((x.1 =? y.1) && str_leb x.2 y.2).

Definition item_le (x y : Z * string) : Prop := item_leb x y = true.

#[global] Instance item_le_dec : RelDecision item_le :=
  fun x y => decide (item_leb x y = true).

(** [sorted(items)] *)
Definition sorted (items : list (Z * string)) : list (Z * string) :=
  merge_sort item_le items.

(** [holiday_dict.setdefault(k, set()).add(d)] on an insertion-ordered dict. *)
Fixpoint setdefault_add (k : string) (d : Z) (m : list (string * gset Z))
  : list (string * gset Z) :=
  match m with
  | [] => [(k, {[ d ]})]
  | (k', s) :: m' =>
      if decide (k = k') then (k', s ∪ {[ d ]}) :: m'
      else (k', s) :: setdefault_add k d m'
  end.

(** Lines 40-42, the body of the loop for one item of the calendar. *)
Definition dict_step (holiday_dict : list (string * gset Z)) (it : Z * string)
  : list (string * gset Z) :=
  let '(date, name) := it in
  setdefault_add (standardized_name name) date holiday_dict.

(** Lines 38-42: the loop over [sorted(....items())]. *)
Definition build_holiday_dict (items : list (Z * string)) : list (string * gset Z) :=
  foldl dict_step [] (sorted items).

(** [Series.unique()]: the distinct values in order of first appearance. *)
Definition unique_step {A} `{EqDecision A} (seen : list A) (y : A) : list A :=
  if decide (y ∈ seen) then seen else seen ++ [y].

Definition unique {A} `{EqDecision A} (l : list A) : list A :=
  foldl unique_step [] l.

(** The dates [end_date + x weeks for x in range(1, time_period + 1)]:
    the column that line 30 builds when each of them is a timestamp
    ([week_column], [week_column_within]). *)
Definition week_starts (end_date : Z) (time_period : nat) : list Z :=
  (fun x => end_date + 7 * Z.of_nat x) <$> seq 1 time_period.

(** [pd.DataFrame({'week': week})] *)
Definition week_frame (week : list Z) : Frame.DataFrame :=
  Frame.mk ["week"] ((fun w => [w]) <$> week).

(** Line 54: [int(any(week_start_date <= holiday_date <= week_end
                        for holiday_date in dates))]. *)
Definition any_in_week (week_start_date week_end : Z) (dates : gset Z) : bool :=
  existsb (fun holiday_date =>
             (week_start_date <=? holiday_date) && (holiday_date <=? week_end))
          (elements dates).

(** Lines 49-54, body of the outer loop for one [(index, row)]. *)
Definition tag_row (holiday_dict : list (string * gset Z)) (cols : list string)
    (df : Frame.DataFrame) (ir : nat * list Z) : option Frame.DataFrame :=
  week_start_date ← Frame.row_get "week" cols ir.2;
  let week_end := week_start_date + 6 in
  for_each (fun df '(holiday, dates) =>
              Frame.at_set ir.1 holiday
                (Z.b2z (any_in_week week_start_date week_end dates)) df)
           df holiday_dict.

(** Lines 44-57 on the frame of week starts: zero columns, the tagging loop,
    and the removal of the week column. *)
Definition holiday_frame (holiday_dict : list (string * gset Z))
    (df : Frame.DataFrame) : option Frame.DataFrame :=
  let df := foldl (fun df holiday => Frame.setitem holiday 0 df) df holiday_dict.*1 in
  df ← for_each (tag_row holiday_dict (Frame.columns df)) df (Frame.iterrows df);
  Frame.drop "week" df.

(** The years of those dates, [df['week'].dt.year.unique()] on that
    column. *)
Definition unique_years (end_date : Z) (time_period : nat) : list Z :=
  unique (Calendar.year_of <$> week_starts end_date time_period).

(** The row of indicators of the week starting at [w], and the matrix of
    all weeks: what the tagging loop leaves in the frame
    ([holiday_frame_spec]). *)
Definition indicator_row (holiday_dict : list (string * gset Z)) (w : Z) : list Z :=
  (fun dates => Z.b2z (any_in_week w (w + 6) dates)) <$> holiday_dict.*2.

Definition indicator_matrix (holiday_dict : list (string * gset Z))
    (weeks : list Z) : list (list Z) :=
  indicator_row holiday_dict <$> weeks.

(** The dates stored under the key [k] ([holiday_dict.get(k, set())]). *)
Fixpoint dates_of (k : string) (m : list (string * gset Z)) : gset Z :=
  match m with
  | [] => ∅
  | (k', s) :: m' => if decide (k = k') then s else dates_of k m'
  end.

(** ** The Calendar Covariate Builder and the Allocation Orchestrator *)

Section App.

(** Exceptions of pandas and of the collaborators. *)
Context {Exn : Type}.

(** The exception pandas raises for a date that is no timestamp. *)
Variable OutOfBoundsDatetime : Exn.

(** [pd.to_datetime(d)] on a calendar date. *)
Definition to_datetime (d : Z) : result Exn Z :=
  if Timestamp.in_bounds d then Ok d else Raise OutOfBoundsDatetime.

(** [t + pd.DateOffset(weeks=x)] *)
Definition add_weeks (t : Z) (x : nat) : result Exn Z :=
  let w := t + 7 * Z.of_nat x in
  if Timestamp.in_bounds w then Ok w else Raise OutOfBoundsDatetime.

(** Line 30, the list
    [[pd.to_datetime(end_date) + pd.DateOffset(weeks=x)
      for x in range(1, time_period + 1)]]: the elements are built in
    order, and the first one that is no timestamp raises. Line 32 converts
    the column of timestamps to itself. *)
Definition week_column (end_date : Z) (time_period : nat) : result Exn (list Z) :=
  mapM (fun x => t ← to_datetime end_date; add_weeks t x) (seq 1 time_period).

(** [holidays.US(years=...).items()]: the entries of the US calendar for
    the given years, in the iteration order of that object. *)
Variable US : list Z -> result Exn (list (Z * string)).

(** [extra_scaler.transform], the fitted covariate scaler of the loaded
    pipeline, and the type of its output. *)
Context {Matrix : Type}.
Variable extra_scaler_transform : list (list Z) -> result Exn Matrix.

(** Lines 30-57: the frame of holiday indicators, one row per week. *)
Definition indicator_frame (end_date : Z) (time_period : nat)
  : result Exn Frame.DataFrame :=
  week ← week_column end_date time_period;
  let df := week_frame week in
  week ← pandas (Frame.getitem "week" df);
  let unique_years := unique (Calendar.year_of <$> week) in
  items ← US unique_years;
  let holiday_dict := build_holiday_dict items in
  pandas (holiday_frame holiday_dict df).

(** Lines 29-63. *)
Definition add_holiday_columns_to_array (end_date : Z) (time_period : nat)
  : result Exn Matrix :=
  df ← indicator_frame end_date time_period;
  extra_scaler_transform (Frame.to_numpy df).

(** Numbers of the optimizer and of the report: floating-point values
    with their product, sum, rounding to two decimals and conversion to
    [float64], none of which the script defines. *)
Context {num : Type}.
Variables (mul add : num -> num -> num) (zero : num).
Variables (round2 astype_float64 : num -> num).

Context {Model Scaler : Type}.

(** Keyword arguments of [optimize_media.find_optimal_budgets]. *)
Record solver_call : Type := {
  n_time_periods : nat;
  media_mix_model : Model;
  extra_features : Matrix;
  budget : num;
  prices : list num;
  media_scaler : Scaler;
  target_scaler : Scaler;
  bounds_lower_pct : Q;
  bounds_upper_pct : Q;
  seed : Z
}.

(** The solution object: [solution.x] and [solution['fun']]. *)
Record OptimizeResult : Type := { x : list num; fun_ : num }.

Variable find_optimal_budgets :
  solver_call -> result Exn (OptimizeResult * num * list num).

(** Lines 66-79. *)
Definition budget_allocator (n_weeks_to_predict : nat) (budget_to_allocate : num)
    (mmm : Model) (media_scaler target_scaler : Scaler) (prices : list num)
    (end_date : Z) : result Exn (OptimizeResult * num * list num) :=
  extra ← add_holiday_columns_to_array end_date n_weeks_to_predict;
  find_optimal_budgets
    {| n_time_periods := n_weeks_to_predict;
       media_mix_model := mmm;
       extra_features := extra;
       budget := budget_to_allocate;
       prices := prices;
       media_scaler := media_scaler;
       target_scaler := target_scaler;
       bounds_lower_pct := 0.05;
       bounds_upper_pct := 0.95;
       seed := 1 |}.

(** The exception numpy and pandas raise on operands of different
    lengths. *)
Variable shape_error : Exn.

(** [a * b] on one-dimensional arrays, with broadcasting of a
    one-element operand. *)
Definition array_mul (a b : list num) : result Exn (list num) :=
  if decide (length a = length b) then Ok (zip_with mul a b)
  else match a, b with
       | [a0], _ => Ok (mul a0 <$> b)
       | _, [b0] => Ok ((fun v => mul v b0) <$> a)
       | _, _ => Raise shape_error
       end.

(** [a.sum()] *)
Definition array_sum (a : list num) : num := foldl add zero a.

(** A row of the report: the Media label, then the columns
    'Optimal Allocation' and 'Previous Allocation'. *)
Definition table_row : Type := string * num * num.

(** [pd.DataFrame({'Media': .., 'Optimal Allocation': ..,
    'Previous Allocation': ..})]: the three arrays must have one length. *)
Definition data_frame3 (media : list string) (optimal previous : list num)
  : result Exn (list table_row) :=
  if decide (length media = length optimal /\ length optimal = length previous)
  then Ok (zip (zip media optimal) previous)
  else Raise shape_error.

(** Lines 156-174: the currency vectors and [table_data] with its total
    row. *)
Definition table_data (media_names : list string) (prices : list num)
    (solution : OptimizeResult) (previous_media_allocation : list num)
  : result Exn (list num * list num * list table_row) :=
  p ← array_mul prices previous_media_allocation;
  let previous_budget_allocation := round2 <$> p in
  o ← array_mul prices (x solution);
  let optimal_budget_allocation := round2 <$> o in
  table ← data_frame3 media_names optimal_budget_allocation
                      previous_budget_allocation;
  let table := (fun r : table_row =>
                  (r.1.1, round2 (astype_float64 r.1.2), r.2)) <$> table in
  let table := (fun r : table_row =>
                  (r.1.1, r.1.2, round2 (astype_float64 r.2))) <$> table in
  let total_optimal := array_sum optimal_budget_allocation in
  let total_previous := array_sum previous_budget_allocation in
  Ok (previous_budget_allocation, optimal_budget_allocation,
      table ++ [("Total", total_optimal, total_previous)]).

(** What the page shows after a press of the button. *)
Inductive screen : Type :=
| Table (t : list table_row)
| ErrorMessage (e : Exn).

(** Lines 142-189: the [try] block around the allocator and the table,
    and its [except Exception] handler. The plot drawn next to the table
    is left out. *)
Definition run_budget_allocator (n_weeks_to_predict : nat)
    (budget_to_allocate : num) (mmm : Model) (media_scaler target_scaler : Scaler)
    (prices : list num) (end_date : Z) (media_names : list string)
  : result Exn screen :=
  match
    r ← budget_allocator n_weeks_to_predict budget_to_allocate mmm
          media_scaler target_scaler prices end_date;
    t ← table_data media_names prices r.1.1 r.2;
    Ok t.2
  with
  | Ok t => Ok (Table t)
  | Raise e => Ok (ErrorMessage e)
  | Undefined => Undefined
  end.

End App.

(** ** Instances used by the scenarios *)

(** The federal holidays of 2023 and 2024 as the US calendar of the
    [holidays] package lists them. *)
Definition us_holidays_2023_2024 : list (Z * string) :=
  [ (Calendar.ymd 2023 1 1, "New Year's Day");
    (Calendar.ymd 2023 1 2, "New Year's Day (observed)");
    (Calendar.ymd 2023 1 16, "Martin Luther King Jr. Day");
    (Calendar.ymd 2023 2 20, "Washington's Birthday");
    (Calendar.ymd 2023 5 29, "Memorial Day");
    (Calendar.ymd 2023 6 19, "Juneteenth National Independence Day");
    (Calendar.ymd 2023 7 4, "Independence Day");
    (Calendar.ymd 2023 9 4, "Labor Day");
    (Calendar.ymd 2023 10 9, "Columbus Day");
    (Calendar.ymd 2023 11 10, "Veterans Day (observed)");
    (Calendar.ymd 2023 11 11, "Veterans Day");
    (Calendar.ymd 2023 11 23, "Thanksgiving");
    (Calendar.ymd 2023 12 25, "Christmas Day");
    (Calendar.ymd 2024 1 1, "New Year's Day");
    (Calendar.ymd 2024 1 15, "Martin Luther King Jr. Day");
    (Calendar.ymd 2024 2 19, "Washington's Birthday");
    (Calendar.ymd 2024 5 27, "Memorial Day");
    (Calendar.ymd 2024 6 19, "Juneteenth National Independence Day");
    (Calendar.ymd 2024 7 4, "Independence Day");
    (Calendar.ymd 2024 9 2, "Labor Day");
    (Calendar.ymd 2024 10 14, "Columbus Day");
    (Calendar.ymd 2024 11 11, "Veterans Day");
    (Calendar.ymd 2024 11 28, "Thanksgiving");
    (Calendar.ymd 2024 12 25, "Christmas Day") ].

(** The exceptions of the scenarios are their messages. *)
Definition out_of_bounds : string := "OutOfBoundsDatetime".

(** The federal holidays of 2021 and 2022 of the same calendar; each entry
    belongs to the year of its date, the observed ones too. *)
Definition us_holidays_2021_2022 : list (Z * string) :=
  [ (Calendar.ymd 2021 1 1, "New Year's Day");
    (Calendar.ymd 2021 1 18, "Martin Luther King Jr. Day");
    (Calendar.ymd 2021 2 15, "Washington's Birthday");
    (Calendar.ymd 2021 5 31, "Memorial Day");
    (Calendar.ymd 2021 6 18, "Juneteenth National Independence Day (observed)");
    (Calendar.ymd 2021 6 19, "Juneteenth National Independence Day");
    (Calendar.ymd 2021 7 4, "Independence Day");
    (Calendar.ymd 2021 7 5, "Independence Day (observed)");
    (Calendar.ymd 2021 9 6, "Labor Day");
    (Calendar.ymd 2021 10 11, "Columbus Day");
    (Calendar.ymd 2021 11 11, "Veterans Day");
    (Calendar.ymd 2021 11 25, "Thanksgiving");
    (Calendar.ymd 2021 12 24, "Christmas Day (observed)");
    (Calendar.ymd 2021 12 25, "Christmas Day");
    (Calendar.ymd 2021 12 31, "New Year's Day (observed)");
    (Calendar.ymd 2022 1 1, "New Year's Day");
    (Calendar.ymd 2022 1 17, "Martin Luther King Jr. Day");
    (Calendar.ymd 2022 2 21, "Washington's Birthday");
    (Calendar.ymd 2022 5 30, "Memorial Day");
    (Calendar.ymd 2022 6 19, "Juneteenth National Independence Day");
    (Calendar.ymd 2022 6 20, "Juneteenth National Independence Day (observed)");
    (Calendar.ymd 2022 7 4, "Independence Day");
    (Calendar.ymd 2022 9 5, "Labor Day");
    (Calendar.ymd 2022 10 10, "Columbus Day");
    (Calendar.ymd 2022 11 11, "Veterans Day");
    (Calendar.ymd 2022 11 24, "Thanksgiving");
    (Calendar.ymd 2022 12 25, "Christmas Day");
    (Calendar.ymd 2022 12 26, "Christmas Day (observed)") ].

Definition us_calendar_2021_2022 (years : list Z) : result string (list (Z * string)) :=
  Ok (filter (fun it => Calendar.year_of it.1 ∈ years) us_holidays_2021_2022).

(** The calendar restricted to the requested years; it never raises. *)
Definition us_calendar (years : list Z) : result string (list (Z * string)) :=
  Ok (filter (fun it => Calendar.year_of it.1 ∈ years) us_holidays_2023_2024).

(** The same calendar iterated in the opposite order. *)
Definition us_calendar_reversed (years : list Z) : result string (list (Z * string)) :=
  Ok (reverse (filter (fun it => Calendar.year_of it.1 ∈ years) us_holidays_2023_2024)).

(** A calendar with no entry for any year. *)
Definition empty_calendar (years : list Z) : result string (list (Z * string)) :=
  Ok [].

(** A scaler that leaves the indicators as they are. *)
Definition identity_scaler (m : list (list Z)) : result string (list (list Z)) :=
  Ok m.

(** Exact decimal arithmetic: rationals, with rounding to the nearest
    hundredth, ties to the even one. *)
Definition rint (q : Q) : Z :=
  let n := Qnum q in
  let d := Z.pos (Qden q) in
  let f := n / d in
  let r2 := 2 * (n mod d) in
  if r2 <? d then f
  else if d <? r2 then f + 1
  else if Z.even f then f else f + 1.

Definition Qround2 (q : Q) : Q := Qred (Qmake (rint (q * 100)) 100).

(** A solver that keeps the previous allocation, and one that fails. *)
Definition keeping_solver (call : @solver_call (list (list Z)) Q unit unit)
  : result string (OptimizeResult * Q * list Q) :=
  Ok ({| x := prices call; fun_ := budget call |}, budget call, prices call).

Definition failing_solver (call : @solver_call (list (list Z)) Q unit unit)
  : result string (@OptimizeResult Q * Q * list Q) :=
  Raise "infeasible bounds".

(** ** Loading a model (lines 82-103) *)

Module Loader.

Section Loader.

(** Exceptions, the uploaded file, the unpickled pipeline, the objects it
    holds under its step names, and plots. *)
Context {Exn File Pipeline Obj Plot : Type}.

(** [KeyError(k)], raised by [named_steps[k]] on a missing step. *)
Variable KeyError : string -> Exn.

(** [pickle.load] and the [named_steps] of the pipeline. *)
Variable pickle_load : File -> result Exn Pipeline.
Variable named_steps : Pipeline -> gmap string Obj.

(** The three plots of [lightweight_mmm.plot], by their arguments. *)
Variable plot_model_fit : Obj -> Obj -> result Exn Plot.
Variable plot_response_curves : Obj -> Obj -> result Exn Plot.
Variable plot_media_baseline_contribution_area_plot :
  Obj -> Obj -> Obj -> result Exn Plot.

(** [steps[k]] *)
Definition step (steps : gmap string Obj) (k : string) : result Exn Obj :=
  match steps !! k with
  | Some v => Ok v
  | None => Raise (KeyError k)
  end.

(** The tuple [load_model] returns. *)
Record bundle : Type := {
  name_model : Obj;
  start_date : Obj;
  end_date : Obj;
  media_scaler : Obj;
  target_scaler : Obj;
  media_names : Obj;
  cost_scaler : Obj;
  extra_scaler : Obj;
  prices : Obj;
  mmm : Obj;
  plot1 : Plot;
  plot2 : Plot;
  plot3 : Plot
}.

(** The step names [load_model] reads, in the order of lines 85-94. *)
Definition required_steps : list string :=
  ["name_model"; "start_date"; "end_date"; "media_scaler"; "target_scaler";
   "channel_names"; "cost_scaler"; "extra_scaler"; "prices"; "mmm"].

(** The first step name of [required_steps] the pipeline lacks. *)
Definition first_missing (steps : gmap string Obj) : option (nat * string) :=
  list_find (fun k => steps !! k = None) required_steps.

(** Lines 83-103; the cache of line 82 is left out. *)
Definition load_model (model_file : File) : result Exn bundle :=
  pipeline ← pickle_load model_file;
  name_model ← step (named_steps pipeline) "name_model";
  start_date ← step (named_steps pipeline) "start_date";
  end_date ← step (named_steps pipeline) "end_date";
  media_scaler ← step (named_steps pipeline) "media_scaler";
  target_scaler ← step (named_steps pipeline) "target_scaler";
  media_names ← step (named_steps pipeline) "channel_names";
  cost_scaler ← step (named_steps pipeline) "cost_scaler";
  extra_scaler ← step (named_steps pipeline) "extra_scaler";
  prices ← step (named_steps pipeline) "prices";
  mmm ← step (named_steps pipeline) "mmm";
  plot1 ← plot_model_fit mmm target_scaler;
  plot2 ← plot_response_curves mmm target_scaler;
  plot3 ← plot_media_baseline_contribution_area_plot mmm target_scaler media_names;
  Ok {| name_model := name_model; start_date := start_date; end_date := end_date;
        media_scaler := media_scaler; target_scaler := target_scaler;
        media_names := media_names; cost_scaler := cost_scaler;
        extra_scaler := extra_scaler; prices := prices; mmm := mmm;
        plot1 := plot1; plot2 := plot2; plot3 := plot3 |}.

End Loader.

End Loader.

(** A pipeline given by its steps, unpickled from a file that is the
    pipeline itself, with plots that are their own description. *)
Definition demo_steps (without : string) : gmap string string :=
  delete without
    (list_to_map ((fun k => (k, "the " +:+ k)) <$> Loader.required_steps)).

Definition demo_load (without : string) : result string Loader.bundle :=
  Loader.load_model (fun k => "KeyError " +:+ k) (fun f : gmap string string => Ok f)
    (fun p => p) (fun m t => Ok "fit") (fun m t => Ok "curves")
    (fun m t c => Ok "baseline") (demo_steps without).

(** A scaler that rejects every matrix. *)
Definition rejecting_scaler (m : list (list Z)) : result string (list (list Z)) :=
  Raise "feature count mismatch".

(** * Properties *)

(** ** Sanity checks of the string and calendar functions *)

Example standardized_new_year :
  standardized_name "New Year's Day" = "hldy_new_year_day".
Proof. reflexivity. Qed.

Example standardized_observed :
  standardized_name "Veterans Day (observed)" = "hldy_veterans_day".
Proof. reflexivity. Qed.

Example standardized_mlk :
  standardized_name "Martin Luther King Jr. Day" = "hldy_martin_luther_king_jr_day".
Proof. reflexivity. Qed.

Example replace_left_to_right : PyStr.replace "'s" "" "a's''ss" = "a's".
Proof. reflexivity. Qed.

Example split_head_no_separator : PyStr.split_head " (" "Labor Day" = "Labor Day".
Proof. reflexivity. Qed.

Example ymd_epoch : Calendar.ymd 1970 1 1 = 719163.
Proof. reflexivity. Qed.

Example new_year_2024_monday : Calendar.weekday (Calendar.ymd 2024 1 1) = 0.
Proof. reflexivity. Qed.

Example leap_day_2024 :
  Calendar.ymd 2024 3 1 - Calendar.ymd 2024 2 28 = 2 ∧
  Calendar.year_of (Calendar.ymd 2024 12 31) = 2024 ∧
  Calendar.year_of (Calendar.ymd 2024 12 31 + 1) = 2025.
Proof. repeat split; reflexivity. Qed.

Example us_holidays_on_mondays :
  Forall (fun it => Calendar.weekday it.1 = 0)
         (filter (fun it => it.2 ∈ ["Martin Luther King Jr. Day"; "Washington's Birthday";
                                    "Memorial Day"; "Labor Day"; "Columbus Day"])
                 us_holidays_2023_2024).
Proof. vm_compute. repeat constructor. Qed.

(** [year_of] inverts [ymd] on every date from 2000 to 2050. *)
Lemma year_of_ymd_2000_2050 :
  forallb Calendar.year_round_trip (Z.of_nat <$> seq 2000 51) = true.
Proof. vm_compute. reflexivity. Qed.

(** ** Column lookup *)

Lemma get_loc_None c cols : Frame.get_loc c cols = None ↔ c ∉ cols.
Proof.
  induction cols as [|c' cols IH]; simpl.
  - split; [intros _; apply not_elem_of_nil | done].
  - case_decide as Hc; subst.
    + split; [done | intros Hn; destruct Hn; left].
    + rewrite fmap_None, IH, not_elem_of_cons. tauto.
Qed.

Lemma get_loc_app_fresh c pre post :
  c ∉ pre → Frame.get_loc c (pre ++ c :: post) = Some (length pre).
Proof.
  induction pre as [|c' pre IH]; simpl; intros Hc.
  - by rewrite decide_True.
  - apply not_elem_of_cons in Hc as [? ?].
    rewrite decide_False by done. by rewrite IH.
Qed.

Lemma get_loc_Some c cols j : Frame.get_loc c cols = Some j → cols !! j = Some c.
Proof.
  revert j. induction cols as [|c' cols IH]; intros j; simpl; [done|].
  case_decide as Hc.
  - by intros [= <-]; subst.
  - destruct (Frame.get_loc c cols) as [j'|]; simpl; [|done].
    intros [= <-]. simpl. by apply IH.
Qed.

Lemma get_loc_elem c cols : c ∈ cols → is_Some (Frame.get_loc c cols).
Proof.
  intros Hc. destruct (Frame.get_loc c cols) eqn:E; [done|].
  by apply get_loc_None in E.
Qed.

Lemma at_set_hit i c v cols rows j r :
  Frame.get_loc c cols = Some j → rows !! i = Some r →
  Frame.at_set i c v (Frame.mk cols rows)
  = Some (Frame.mk cols (<[i := <[j := v]> r]> rows)).
Proof. intros Hj Hi. unfold Frame.at_set. simpl. rewrite Hj. simpl. by rewrite Hi. Qed.

Lemma at_get_column i c df v : Frame.at_get i c df = Some v → c ∈ Frame.columns df.
Proof.
  unfold Frame.at_get. intros Hget.
  destruct (Frame.get_loc c (Frame.columns df)) as [j|] eqn:Hj; [|done].
  apply get_loc_Some in Hj. by eapply list_elem_of_lookup_2.
Qed.

Lemma at_get_row i c df v :
  Frame.at_get i c df = Some v → is_Some (Frame.rows df !! i).
Proof.
  unfold Frame.at_get. intros Hget.
  destruct (Frame.get_loc c (Frame.columns df)) as [j|]; [|done]. simpl in Hget.
  by destruct (Frame.rows df !! i).
Qed.

(** ** The frame after the tagging loop *)

(** Lines 45-46: fresh labels are appended as columns of zeros. *)
Lemma setitem_all ks : ∀ cols rows,
  NoDup (cols ++ ks) →
  foldl (fun df holiday => Frame.setitem holiday 0 df) (Frame.mk cols rows) ks
  = Frame.mk (cols ++ ks) ((fun r => r ++ replicate (length ks) 0) <$> rows).
Proof.
  induction ks as [|k ks IH]; intros cols rows Hnd; simpl.
  - rewrite app_nil_r. f_equal. rewrite <- (list_fmap_id rows) at 1.
    apply list_fmap_ext. intros _ r _. simpl. by rewrite app_nil_r.
  - unfold Frame.setitem at 2. simpl.
    assert (Frame.get_loc k cols = None) as ->.
    { apply get_loc_None. apply NoDup_app in Hnd as (_ & Hd & _).
      intros Hk. apply (Hd k Hk). left. }
    rewrite IH by (by rewrite <- app_assoc).
    rewrite <- app_assoc. simpl. f_equal.
    rewrite <- list_fmap_compose. apply list_fmap_ext. intros _ r _. simpl.
    by rewrite <- app_assoc.
Qed.

Lemma insert_middle {A} (w : A) (vals zs : list A) (z v : A) n :
  n = length vals →
  <[S n := v]> (w :: vals ++ z :: zs) = w :: (vals ++ [v]) ++ zs.
Proof.
  intros ->. simpl. f_equal. rewrite insert_app_r_alt by lia.
  rewrite Nat.sub_diag. simpl. by rewrite <- app_assoc.
Qed.

(** The inner loop of lines 53-54 on row [i]: the cells of the dictionary
    entries [post] are written, the ones written before are kept. *)
Lemma tag_cells (f : gset Z → Z) i w post : ∀ pre vals zs rows,
  NoDup ("week" :: (pre ++ post).*1) →
  length vals = length pre → length zs = length post →
  rows !! i = Some (w :: vals ++ zs) →
  for_each (fun df '(holiday, dates) => Frame.at_set i holiday (f dates) df)
     (Frame.mk ("week" :: (pre ++ post).*1) rows) post
  = Some (Frame.mk ("week" :: (pre ++ post).*1)
            (<[i := w :: vals ++ (f <$> post.*2)]> rows)).
Proof.
  induction post as [|[h dates] post IH]; intros pre vals zs rows Hnd Hv Hz Hi.
  - destruct zs; [|done]. simpl. do 2 f_equal.
    symmetry. by apply list_insert_id.
  - destruct zs as [|z zs]; [done|]. simpl in Hz.
    cbn [for_each].
    assert (Frame.get_loc h ("week" :: (pre ++ (h, dates) :: post).*1)
            = Some (S (length pre))) as Hloc.
    { apply NoDup_cons in Hnd as [Hw Hnd].
      rewrite fmap_app in Hw, Hnd |- *. cbn [fmap list_fmap] in Hw, Hnd |- *.
      cbn [Frame.get_loc]. rewrite decide_False.
      2:{ intros ->. apply Hw. apply elem_of_app. right. left. }
      rewrite get_loc_app_fresh; [by rewrite length_fmap|].
      apply NoDup_app in Hnd as (_ & Hd & _). intros Hh. apply (Hd h Hh). left. }
    rewrite (at_set_hit _ _ _ _ _ _ _ Hloc Hi). cbn [mbind option_bind].
    rewrite (insert_middle w vals zs z (f dates) (length pre)) by done.
    replace (pre ++ (h, dates) :: post) with ((pre ++ [(h, dates)]) ++ post)
      in Hnd |- * by (by rewrite <- app_assoc).
    rewrite (IH (pre ++ [(h, dates)]) (vals ++ [f dates]) zs); try done.
    + do 2 f_equal. rewrite list_insert_insert_eq. f_equal. f_equal.
      by rewrite <- app_assoc.
    + rewrite !length_app. simpl. lia.
    + lia.
    + apply list_lookup_insert_eq. by eapply lookup_lt_Some.
Qed.

Section Tagging.
Variable holiday_dict : list (string * gset Z).
Hypothesis keys_nodup : NoDup ("week" :: holiday_dict.*1).

Let cols := "week" :: holiday_dict.*1.
Let untagged (w : Z) : list Z := [w] ++ replicate (length holiday_dict.*1) 0.
Let tagged (w : Z) : list Z := w :: indicator_row holiday_dict w.

(** One pass of the outer loop replaces the zeros of row [i] by its
    indicators. *)
Lemma tag_row_spec i w rows :
  rows !! i = Some (untagged w) →
  tag_row holiday_dict cols (Frame.mk cols rows) (i, untagged w)
  = Some (Frame.mk cols (<[i := tagged w]> rows)).
Proof.
  intros Hi. unfold tag_row, Frame.row_get, cols. simpl.
  apply (tag_cells _ i w holiday_dict [] [] (replicate (length holiday_dict.*1) 0));
    try done.
  by rewrite length_replicate, length_fmap.
Qed.

(** The outer loop of lines 49-54, with the weeks [done] already tagged. *)
Lemma tag_rows_spec rest : ∀ done,
  for_each (tag_row holiday_dict cols)
    (Frame.mk cols ((tagged <$> done) ++ (untagged <$> rest)))
    (imap (fun i r => ((length done + i)%nat, r)) (untagged <$> rest))
  = Some (Frame.mk cols (tagged <$> (done ++ rest))).
Proof.
  induction rest as [|w rest IH]; intros done.
  - simpl. by rewrite !app_nil_r.
  - rewrite fmap_cons, imap_cons. cbn [for_each]. rewrite Nat.add_0_r.
    rewrite tag_row_spec.
    2:{ rewrite lookup_app_r by (by rewrite length_fmap).
        by rewrite length_fmap, Nat.sub_diag. }
    cbn [mbind option_bind].
    replace (<[length done := tagged w]> ((tagged <$> done) ++ untagged w :: (untagged <$> rest)))
      with ((tagged <$> (done ++ [w])) ++ (untagged <$> rest)).
    2:{ rewrite insert_app_r_alt by (by rewrite length_fmap).
        rewrite length_fmap, Nat.sub_diag. simpl.
        by rewrite fmap_app, <- app_assoc. }
    erewrite imap_ext; [rewrite (IH (done ++ [w])); by rewrite <- app_assoc|].
    intros j r _. simpl. rewrite length_app. simpl. f_equal. lia.
Qed.

(** Lines 44-57 leave the keys of the dictionary as columns and the
    indicator matrix as rows; no step meets a missing label. *)
Lemma holiday_frame_spec week :
  holiday_frame holiday_dict (week_frame week)
  = Some (Frame.mk holiday_dict.*1 (indicator_matrix holiday_dict week)).
Proof.
  unfold holiday_frame, week_frame.
  rewrite (setitem_all holiday_dict.*1 ["week"]) by done.
  rewrite <- list_fmap_compose. cbn [Frame.columns Frame.rows Frame.iterrows].
  change (["week"] ++ holiday_dict.*1) with cols.
  pose proof (tag_rows_spec week []) as H.
  simpl in H. unfold Frame.iterrows. cbn [Frame.rows].
  change ((fun r : list Z => r ++ replicate (length holiday_dict.*1) 0)
            ∘ (fun w : Z => [w])) with untagged.
  rewrite H. cbn [mbind option_bind]. unfold Frame.drop, cols. simpl.
  f_equal. f_equal. rewrite <- list_fmap_compose. done.
Qed.
End Tagging.

(** ** The order of [sorted] *)

Lemma nat_of_ascii_inj a b : nat_of_ascii a = nat_of_ascii b → a = b.
Proof.
  intros H. rewrite <- (ascii_nat_embedding a), <- (ascii_nat_embedding b).
  by rewrite H.
Qed.

Lemma str_leb_cons a s b t :
  str_leb (String a s) (String b t) = true ↔
  (nat_of_ascii a < nat_of_ascii b)%nat ∨ (a = b ∧ str_leb s t = true).
Proof.
  simpl. destruct (Nat.ltb_spec (nat_of_ascii a) (nat_of_ascii b)) as [Hlt|Hge].
  - tauto.
  - case_decide as Hab.
    + subst. split; [tauto|]. intros [?|[_ ?]]; [lia|done].
    + split; [done|]. intros [?|[? _]]; [lia|done].
Qed.

Lemma str_leb_total s : ∀ t, str_leb s t = true ∨ str_leb t s = true.
Proof.
  induction s as [|a s IH]; intros [|b t]; try (by left); try (by right).
  rewrite !str_leb_cons.
  destruct (lt_eq_lt_dec (nat_of_ascii a) (nat_of_ascii b)) as [[?|Heq]|?];
    [tauto| |tauto].
  apply nat_of_ascii_inj in Heq as ->. destruct (IH t); tauto.
Qed.

Lemma str_leb_trans s : ∀ t u,
  str_leb s t = true → str_leb t u = true → str_leb s u = true.
Proof.
  induction s as [|a s IH]; intros [|b t] [|c u]; try done.
  rewrite !str_leb_cons. intros [?|[-> Hst]] [?|[-> Htu]].
  - left; lia.
  - tauto.
  - tauto.
  - right. split; [done|]. by apply (IH t).
Qed.

Lemma str_leb_antisym s : ∀ t,
  str_leb s t = true → str_leb t s = true → s = t.
Proof.
  induction s as [|a s IH]; intros [|b t]; try done.
  rewrite !str_leb_cons. intros [?|[-> Hst]] [?|[Heq Hts]]; try lia.
  - subst. lia.
  - f_equal. by apply IH.
Qed.

Lemma item_leb_spec x y :
  item_leb x y = true ↔ x.1 < y.1 ∨ (x.1 = y.1 ∧ str_leb x.2 y.2 = true).
Proof.
  unfold item_leb. rewrite orb_true_iff, andb_true_iff, Z.ltb_lt, Z.eqb_eq. done.
Qed.

#[local] Instance item_le_total : Total item_le.
Proof.
  intros x y. unfold item_le. rewrite !item_leb_spec.
  destruct (Z.lt_trichotomy x.1 y.1) as [?|[Heq|?]]; [tauto| |tauto].
  destruct (str_leb_total x.2 y.2); [left|right]; right; split; done.
Qed.

#[local] Instance item_le_trans : Transitive item_le.
Proof.
  intros x y z. unfold item_le. rewrite !item_leb_spec.
  intros [?|[? Hxy]] [?|[? Hyz]]; try (left; lia).
  right. split; [lia|]. by apply (str_leb_trans _ y.2).
Qed.

#[local] Instance item_le_antisym : AntiSymm (=) item_le.
Proof.
  intros [d n] [d' n']. unfold item_le. rewrite !item_leb_spec. simpl.
  intros [?|[? Hxy]] [?|[? Hyx]]; try lia.
  f_equal; [done|]. by apply str_leb_antisym.
Qed.

Lemma sorted_perm items : sorted items ≡ₚ items.
Proof. apply merge_sort_Permutation. Qed.

(** [sorted] forgets the order in which the items are enumerated. *)
Lemma sorted_Permutation items1 items2 :
  items1 ≡ₚ items2 → sorted items1 = sorted items2.
Proof.
  intros Hp. apply (StronglySorted_unique item_le).
  - apply StronglySorted_merge_sort; apply _.
  - apply StronglySorted_merge_sort; apply _.
  - by rewrite !sorted_perm.
Qed.

(** ** The holiday dictionary *)

Lemma setdefault_add_keys k d m :
  (setdefault_add k d m).*1 = if decide (k ∈ m.*1) then m.*1 else m.*1 ++ [k].
Proof.
  induction m as [|[k' s] m IH]; simpl.
  - done.
  - destruct (decide (k = k')) as [->|Hk]; cbn [fmap list_fmap fst].
    + by rewrite decide_True by (apply elem_of_cons; tauto).
    + rewrite IH. destruct (decide (k ∈ m.*1)) as [Hin|Hin].
      * by rewrite decide_True by (apply elem_of_cons; tauto).
      * by rewrite decide_False by (rewrite elem_of_cons; tauto).
Qed.

Lemma setdefault_add_dates k d m k' :
  dates_of k' (setdefault_add k d m)
  = if decide (k' = k) then dates_of k' m ∪ {[ d ]} else dates_of k' m.
Proof.
  induction m as [|[k0 s] m IH]; simpl.
  - destruct (decide (k' = k)); by rewrite ?union_empty_l_L.
  - destruct (decide (k = k0)) as [->|Hk]; simpl.
    + destruct (decide (k' = k0)); done.
    + destruct (decide (k' = k0)) as [->|?].
      * rewrite decide_False; done.
      * apply IH.
Qed.

Lemma setdefault_add_NoDup k d m : NoDup m.*1 → NoDup (setdefault_add k d m).*1.
Proof.
  intros Hnd. rewrite setdefault_add_keys. case_decide; [done|].
  apply NoDup_app. repeat split; [done| |apply NoDup_singleton].
  intros x Hx ->%list_elem_of_singleton. done.
Qed.

Lemma fold_NoDup l : ∀ m, NoDup m.*1 → NoDup (foldl dict_step m l).*1.
Proof.
  induction l as [|[d name] l IH]; intros m Hm; simpl; [done|].
  apply IH. by apply setdefault_add_NoDup.
Qed.

Lemma fold_dates l : ∀ m k d,
  d ∈ dates_of k (foldl dict_step m l) ↔
  d ∈ dates_of k m ∨ ∃ name, (d, name) ∈ l ∧ standardized_name name = k.
Proof.
  induction l as [|[d0 name0] l IH]; intros m k d; simpl.
  - split; [by left|]. intros [?|(name & Hin & _)]; [done|].
    by apply elem_of_nil in Hin.
  - rewrite IH, setdefault_add_dates. split.
    + intros [Hd|(name & Hin & Hk)].
      * destruct (decide (k = standardized_name name0)) as [->|?]; [|by left].
        apply elem_of_union in Hd as [?| ->%elem_of_singleton]; [by left|].
        right. exists name0. split; [apply elem_of_cons; by left | done].
      * right. exists name. split; [apply elem_of_cons; by right | done].
    + intros [Hd|(name & Hin & Hk)].
      * left. case_decide; [apply elem_of_union; by left | done].
      * apply elem_of_cons in Hin as [Heq|Hin].
        -- injection Heq as -> ->.
           left. rewrite decide_True by done. apply elem_of_union. right.
           by apply elem_of_singleton.
        -- right. by exists name.
Qed.

Lemma fold_keys l : ∀ m k,
  k ∈ (foldl dict_step m l).*1 ↔
  k ∈ m.*1 ∨ ∃ d name, (d, name) ∈ l ∧ standardized_name name = k.
Proof.
  induction l as [|[d0 name0] l IH]; intros m k; simpl.
  - split; [by left|]. intros [?|(d & name & Hin & _)]; [done|].
    by apply elem_of_nil in Hin.
  - rewrite IH, setdefault_add_keys. split.
    + intros [Hk|(d & name & Hin & Hk)].
      * case_decide; [by left|].
        apply elem_of_app in Hk as [?| ->%list_elem_of_singleton]; [by left|].
        right. exists d0, name0. split; [apply elem_of_cons; by left | done].
      * right. exists d, name. split; [apply elem_of_cons; by right | done].
    + intros [Hk|(d & name & Hin & Hk)].
      * left. case_decide; [done | apply elem_of_app; by left].
      * apply elem_of_cons in Hin as [Heq|Hin].
        -- injection Heq as -> ->.
           left. subst k. case_decide; [done|]. apply elem_of_app. right.
           by apply list_elem_of_singleton.
        -- right. by exists d, name.
Qed.

(** The keys are in order of first appearance. *)
Lemma fold_keys_order l : ∀ m,
  (foldl dict_step m l).*1 = foldl unique_step m.*1 (standardized_name <$> l.*2).
Proof.
  induction l as [|[d name] l IH]; intros m; simpl; [done|].
  rewrite IH. f_equal. apply setdefault_add_keys.
Qed.

Lemma build_NoDup items : NoDup (build_holiday_dict items).*1.
Proof. apply fold_NoDup. constructor. Qed.

(** The set stored under a key holds the dates of the items whose label
    canonicalizes to the key. *)
Lemma build_dates items k d :
  d ∈ dates_of k (build_holiday_dict items) ↔
  ∃ name, (d, name) ∈ items ∧ standardized_name name = k.
Proof.
  unfold build_holiday_dict. rewrite fold_dates. simpl.
  setoid_rewrite (sorted_perm items). split; [|by right].
  intros [Hd|?]; [|done]. by apply elem_of_empty in Hd.
Qed.

(** The keys are the canonical names of the items. *)
Lemma build_keys items k :
  k ∈ (build_holiday_dict items).*1 ↔
  ∃ d name, (d, name) ∈ items ∧ standardized_name name = k.
Proof.
  unfold build_holiday_dict. rewrite fold_keys. simpl.
  setoid_rewrite (sorted_perm items). split; [|by right].
  intros [Hd|?]; [|done]. by apply elem_of_nil in Hd.
Qed.

Lemma build_keys_week items : NoDup ("week" :: (build_holiday_dict items).*1).
Proof.
  apply NoDup_cons. split; [|apply build_NoDup].
  intros (d & name & _ & Hk)%build_keys. discriminate Hk.
Qed.

Lemma dates_of_lookup m : ∀ j k s,
  NoDup m.*1 → m !! j = Some (k, s) → dates_of k m = s.
Proof.
  induction m as [|[k0 s0] m IH]; intros j k s Hnd Hj; [done|].
  simpl in Hnd. apply NoDup_cons in Hnd as [Hk0 Hnd].
  destruct j as [|j]; simpl in Hj |- *.
  - injection Hj as -> ->. by rewrite decide_True.
  - rewrite decide_False; [by eapply IH|].
    intros ->. apply Hk0. apply list_elem_of_fmap. exists (k0, s).
    split; [done|]. by eapply list_elem_of_lookup_2.
Qed.

(** No step of lines 44-57 meets a missing label. *)
Lemma holiday_frame_defined items week :
  is_Some (holiday_frame (build_holiday_dict items) (week_frame week)).
Proof. rewrite holiday_frame_spec by apply build_keys_week. done. Qed.

Lemma unique_fold {A} `{EqDecision A} (l : list A) : ∀ (seen : list A) (y : A),
  y ∈ foldl unique_step seen l ↔ y ∈ seen ∨ y ∈ l.
Proof.
  induction l as [|a l IH]; intros seen y; simpl.
  - rewrite elem_of_nil. tauto.
  - rewrite IH, elem_of_cons. unfold unique_step. case_decide as Ha.
    + split; [tauto|]. intros [?|[->|?]]; tauto.
    + rewrite elem_of_app, list_elem_of_singleton. tauto.
Qed.

Lemma elem_of_unique {A} `{EqDecision A} (l : list A) (y : A) :
  y ∈ unique l ↔ y ∈ l.
Proof. unfold unique. rewrite unique_fold, elem_of_nil. tauto. Qed.

Lemma unique_NoDup_fold {A} `{EqDecision A} (l : list A) : ∀ seen,
  NoDup seen → NoDup (foldl unique_step seen l).
Proof.
  induction l as [|a l IH]; intros seen Hs; simpl; [done|].
  apply IH. unfold unique_step. case_decide; [done|].
  apply NoDup_app. repeat split; [done| |apply NoDup_singleton].
  intros y Hy ->%list_elem_of_singleton. done.
Qed.

(** ** The builder in closed form *)

Lemma any_in_week_spec a b (s : gset Z) :
  any_in_week a b s = true ↔ ∃ d, d ∈ s ∧ a ≤ d ≤ b.
Proof.
  unfold any_in_week. rewrite existsb_exists. split.
  - intros (d & Hin & Hd). exists d. apply list_elem_of_In, elem_of_elements in Hin.
    apply andb_true_iff in Hd as [?%Z.leb_le ?%Z.leb_le]. done.
  - intros (d & Hin & Hd). exists d. split.
    + by apply list_elem_of_In, elem_of_elements.
    + apply andb_true_iff. split; apply Z.leb_le; lia.
Qed.

Lemma getitem_week week :
  Frame.getitem "week" (week_frame week) = Some week.
Proof.
  unfold Frame.getitem, week_frame. simpl.
  induction week as [|w ws IH]; [done|].
  rewrite fmap_cons. cbn [mapM]. rewrite IH. done.
Qed.

Lemma week_starts_length end_date time_period :
  length (week_starts end_date time_period) = time_period.
Proof. unfold week_starts. by rewrite length_fmap, length_seq. Qed.

Lemma week_starts_lookup end_date time_period (k : nat) :
  (k < time_period)%nat →
  week_starts end_date time_period !! k = Some (end_date + 7 * (Z.of_nat k + 1)).
Proof.
  intros Hk. unfold week_starts. rewrite list_lookup_fmap, lookup_seq_lt by done.
  simpl. f_equal. lia.
Qed.


Lemma elem_of_unique_years end_date time_period y :
  y ∈ unique_years end_date time_period ↔
  ∃ w, w ∈ week_starts end_date time_period ∧ Calendar.year_of w = y.
Proof.
  unfold unique_years. rewrite elem_of_unique, list_elem_of_fmap.
  split; [intros (w & -> & ?); by exists w | intros (w & ? & <-); by exists w].
Qed.

(** ** The range of timestamps *)

(** The dates whose midnight is a timestamp. *)
Lemma in_bounds_spec d :
  Timestamp.in_bounds d = true ↔ Timestamp.min_date ≤ d ≤ Timestamp.max_date.
Proof.
  unfold Timestamp.in_bounds, Timestamp.value.
  change (Calendar.ymd 1970 1 1) with 719163.
  change Timestamp.min_date with 612412. change Timestamp.max_date with 825914.
  change (2 ^ 63) with 9223372036854775808. change (10 ^ 9) with 1000000000.
  rewrite andb_true_iff, !Z.ltb_lt. lia.
Qed.

Lemma within_forallb end_date time_period :
  forallb (fun x => Timestamp.in_bounds end_date
                    && Timestamp.in_bounds (end_date + 7 * Z.of_nat x))
          (seq 1 time_period) = true
  ↔ Timestamp.within end_date time_period.
Proof.
  rewrite forallb_forall. unfold Timestamp.within. split.
  - intros Hall. destruct time_period as [|n]; [by left|right].
    assert (In (S n) (seq 1 (S n))) as Hin
      by (apply list_elem_of_In, elem_of_seq; lia).
    apply Hall, andb_true_iff in Hin as [H1 H2].
    apply in_bounds_spec in H1. apply in_bounds_spec in H2. lia.
  - intros [->|[Hlo Hhi]] x Hx; [done|].
    apply list_elem_of_In, elem_of_seq in Hx.
    apply andb_true_iff. split; apply in_bounds_spec; lia.
Qed.

Section WeekColumn.
Context {Exn : Type}.
Variable OutOfBoundsDatetime : Exn.

(** The list of line 30 is the list of dates, or the exception of the
    first date that is no timestamp. *)
Lemma week_column_spec end_date time_period :
  week_column OutOfBoundsDatetime end_date time_period
  = if forallb (fun x => Timestamp.in_bounds end_date
                         && Timestamp.in_bounds (end_date + 7 * Z.of_nat x))
               (seq 1 time_period)
    then Ok (week_starts end_date time_period)
    else Raise OutOfBoundsDatetime.
Proof.
  unfold week_column, week_starts. generalize 1%nat.
  induction time_period as [|n IH]; intros a; [done|].
  cbn [seq mapM forallb fmap list_fmap]. rewrite IH.
  unfold to_datetime, add_weeks.
  destruct (Timestamp.in_bounds end_date); [|done].
  cbn [mbind result_bind andb].
  destruct (Timestamp.in_bounds (end_date + 7 * Z.of_nat a)); [|done].
  cbn [mbind result_bind andb]. by destruct (forallb _ _).
Qed.

Lemma week_column_within end_date time_period :
  Timestamp.within end_date time_period →
  week_column OutOfBoundsDatetime end_date time_period
  = Ok (week_starts end_date time_period).
Proof.
  intros Hw%within_forallb. by rewrite week_column_spec, Hw.
Qed.


Lemma week_column_Ok end_date time_period week :
  week_column OutOfBoundsDatetime end_date time_period = Ok week →
  Timestamp.within end_date time_period ∧ week = week_starts end_date time_period.
Proof.
  rewrite week_column_spec. destruct (forallb _ _) eqn:E; [|done].
  intros [= <-]. by apply within_forallb in E.
Qed.
End WeekColumn.

(** Proves [Timestamp.within] of a given start date and positive horizon. *)
Ltac timestamps := right; split; apply Zle_bool_imp_le; reflexivity.

Section Builder.
Context {Exn Matrix : Type}.
Variable OutOfBoundsDatetime : Exn.
Variable US : list Z → result Exn (list (Z * string)).
Variable extra_scaler_transform : list (list Z) → result Exn Matrix.

(** The frame of indicators in closed form: one call of the calendar, on
    the years of the week starts. *)
Lemma indicator_frame_eq end_date time_period :
  Timestamp.within end_date time_period →
  indicator_frame OutOfBoundsDatetime US end_date time_period
  = items ← US (unique_years end_date time_period);
    Ok (Frame.mk (build_holiday_dict items).*1
          (indicator_matrix (build_holiday_dict items)
             (week_starts end_date time_period))).
Proof.
  intros Hw. unfold indicator_frame. rewrite week_column_within by done.
  cbn [mbind result_bind]. rewrite getitem_week. simpl.
  fold (unique_years end_date time_period).
  destruct (US (unique_years end_date time_period)) as [items|e|]; simpl; try done.
  rewrite holiday_frame_spec by apply build_keys_week. done.
Qed.

Lemma builder_eq end_date time_period :
  Timestamp.within end_date time_period →
  add_holiday_columns_to_array OutOfBoundsDatetime US extra_scaler_transform
    end_date time_period
  = items ← US (unique_years end_date time_period);
    extra_scaler_transform
      (indicator_matrix (build_holiday_dict items)
         (week_starts end_date time_period)).
Proof.
  intros Hw. unfold add_holiday_columns_to_array. rewrite indicator_frame_eq by done.
  by destruct (US (unique_years end_date time_period)).
Qed.

End Builder.

(** The builder stays inside what the embedding describes. *)
Lemma add_holiday_columns_to_array_defined {Exn Matrix : Type}
    (OutOfBoundsDatetime : Exn)
    (US : list Z → result Exn (list (Z * string)))
    (extra_scaler_transform : list (list Z) → result Exn Matrix)
    (end_date : Z) (time_period : nat) :
  (∀ years, US years ≠ Undefined) →
  (∀ m, extra_scaler_transform m ≠ Undefined) →
  add_holiday_columns_to_array OutOfBoundsDatetime US extra_scaler_transform
    end_date time_period
  ≠ Undefined.
Proof.
  intros HUS Htr.
  destruct (week_column OutOfBoundsDatetime end_date time_period) as [week|e|] eqn:Ew.
  - apply week_column_Ok in Ew as [Hw _]. rewrite builder_eq by done.
    destruct (US (unique_years end_date time_period)) as [items|e|] eqn:E; simpl.
    + apply Htr.
    + done.
    + by destruct (HUS _ E).
  - unfold add_holiday_columns_to_array, indicator_frame. by rewrite Ew.
  - rewrite week_column_spec in Ew. by destruct (forallb _ _).
Qed.

Lemma indicator_cell holiday_dict weeks i w j k s :
  weeks !! i = Some w → holiday_dict !! j = Some (k, s) →
  indicator_matrix holiday_dict weeks !! i ≫= (fun r => r !! j)
  = Some (Z.b2z (any_in_week w (w + 6) s)).
Proof.
  intros Hi Hj. unfold indicator_matrix, indicator_row.
  rewrite list_lookup_fmap, Hi. simpl.
  by rewrite !list_lookup_fmap, Hj.
Qed.

Lemma indicator_frame_cell {Exn : Type}
    (OutOfBoundsDatetime : Exn)
    (US : list Z → result Exn (list (Z * string)))
    (end_date : Z) (time_period : nat) (items : list (Z * string)) :
  Timestamp.within end_date time_period →
  US (unique_years end_date time_period) = Ok items →
  ∃ df, indicator_frame OutOfBoundsDatetime US end_date time_period = Ok df ∧
    Frame.columns df = (build_holiday_dict items).*1 ∧
    length (Frame.rows df) = time_period ∧
    ∀ (i : nat) (w : Z) (c : string),
      week_starts end_date time_period !! i = Some w →
      c ∈ Frame.columns df →
      Frame.at_get i c df
      = Some (Z.b2z (any_in_week w (w + 6) (dates_of c (build_holiday_dict items)))).
Proof.
  intros Hrange HUS. rewrite indicator_frame_eq, HUS by done. simpl. eexists. split; [done|].
  simpl. split; [done|]. split.
  { unfold indicator_matrix. by rewrite length_fmap, week_starts_length. }
  intros i w c Hi Hc. unfold Frame.at_get. simpl.
  destruct (get_loc_elem _ _ Hc) as [j Hj]. rewrite Hj. simpl.
  apply get_loc_Some in Hj. rewrite list_lookup_fmap in Hj.
  destruct ((build_holiday_dict items) !! j) as [[k s]|] eqn:Hd; [|done].
  simpl in Hj. injection Hj as ->.
  rewrite (dates_of_lookup _ _ _ _ (build_NoDup items) Hd).
  pose proof (indicator_cell _ _ _ _ _ _ _ Hi Hd) as Hcell.
  destruct (indicator_matrix _ _ !! i); [done|discriminate Hcell].
Qed.

(** Columns and cells of the frame in terms of the retrieved items. *)
Lemma indicator_frame_cells {Exn : Type}
    (OutOfBoundsDatetime : Exn)
    (US : list Z → result Exn (list (Z * string)))
    (end_date : Z) (time_period : nat) (items : list (Z * string)) :
  Timestamp.within end_date time_period →
  US (unique_years end_date time_period) = Ok items →
  ∃ df, indicator_frame OutOfBoundsDatetime US end_date time_period = Ok df ∧
    (∀ c, c ∈ Frame.columns df ↔
          ∃ date name, (date, name) ∈ items ∧ standardized_name name = c) ∧
    ∀ (i : nat) (w : Z),
      week_starts end_date time_period !! i = Some w →
      (∀ c, c ∈ Frame.columns df →
         ∃ v, Frame.at_get i c df = Some v ∧ (v = 0 ∨ v = 1) ∧
           (v = 1 ↔ ∃ date name, (date, name) ∈ items ∧
                      standardized_name name = c ∧ w ≤ date ≤ w + 6)) ∧
      ((∀ date name, (date, name) ∈ items → ¬ (w ≤ date ≤ w + 6)) →
         Frame.rows df !! i = Some (replicate (length (Frame.columns df)) 0)).
Proof.
  intros Hrange HUS.
  destruct (indicator_frame_cell OutOfBoundsDatetime US _ _ _ Hrange HUS)
    as (df & Hdf & Hcols & Hlen & Hcell).
  exists df. split; [done|]. split.
  { intros c. rewrite Hcols. apply build_keys. }
  intros i w Hi.
  assert (∀ c, any_in_week w (w + 6) (dates_of c (build_holiday_dict items)) = true ↔
               ∃ date name, (date, name) ∈ items ∧
                 standardized_name name = c ∧ w ≤ date ≤ w + 6) as Hany.
  { intros c. rewrite any_in_week_spec. split.
    - intros (d & (name & ? & ?)%build_dates & ?). by exists d, name.
    - intros (d & name & ? & ? & ?). exists d. split; [|done].
      apply build_dates. by exists name. }
  split.
  - intros c Hc. eexists. split; [by apply Hcell|]. rewrite <- Hany.
    destruct (any_in_week _ _ _); simpl; split; auto; done.
  - intros Hnone. rewrite indicator_frame_eq, HUS in Hdf by done. simpl in Hdf.
    injection Hdf as <-. simpl. unfold indicator_matrix.
    rewrite list_lookup_fmap, Hi. simpl. f_equal. unfold indicator_row.
    rewrite length_fmap. 
    apply list_eq. intros j. rewrite list_lookup_fmap.
    destruct (build_holiday_dict items !! j) as [[k s]|] eqn:Hj.
    + rewrite list_lookup_fmap, Hj. simpl.
      rewrite lookup_replicate_2 by (by eapply lookup_lt_Some).
      f_equal. rewrite <- (dates_of_lookup _ _ _ _ (build_NoDup items) Hj).
      destruct (any_in_week _ _ _) eqn:E; [|done].
      apply Hany in E as (d & name & Hin & _ & Hw). by destruct (Hnone d name Hin).
    + rewrite list_lookup_fmap, Hj. simpl. symmetry.
      apply lookup_replicate_None. by apply lookup_ge_None.
Qed.

(** A cell is 1 exactly when a retrieved item of the column lies in the
    window of the row. *)
Lemma indicator_frame_marks {Exn : Type}
    (OutOfBoundsDatetime : Exn)
    (US : list Z → result Exn (list (Z * string)))
    (end_date : Z) (time_period : nat) (items : list (Z * string)) :
  Timestamp.within end_date time_period →
  US (unique_years end_date time_period) = Ok items →
  ∃ df, indicator_frame OutOfBoundsDatetime US end_date time_period = Ok df ∧
    ∀ (i : nat) (c : string),
      Frame.at_get i c df = Some 1 ↔
      ∃ w date name, week_starts end_date time_period !! i = Some w ∧
        (date, name) ∈ items ∧ standardized_name name = c ∧ w ≤ date ≤ w + 6.
Proof.
  intros Hrange HUS.
  destruct (indicator_frame_cells OutOfBoundsDatetime US _ _ _ Hrange HUS)
    as (df & Hdf & Hcols & Hcells).
  exists df. split; [done|]. intros i c. split.
  - intros Hget. pose proof (at_get_column _ _ _ _ Hget) as Hc.
    destruct (at_get_row _ _ _ _ Hget) as [r Hr].
    destruct (week_starts end_date time_period !! i) as [w|] eqn:Hi.
    + destruct (Hcells i w Hi) as [Hcell _].
      destruct (Hcell c Hc) as (v & Hv & _ & Hiff).
      rewrite Hget in Hv. injection Hv as <-.
      destruct Hiff as [Hiff _].
      destruct (Hiff eq_refl) as (d & name & ? & ? & ?). by exists w, d, name.
    + apply lookup_ge_None in Hi. rewrite week_starts_length in Hi.
      apply lookup_lt_Some in Hr.
      rewrite indicator_frame_eq, HUS in Hdf by done. simpl in Hdf. injection Hdf as <-.
      simpl in Hr. unfold indicator_matrix in Hr.
      rewrite length_fmap, week_starts_length in Hr. lia.
  - intros (w & d & name & Hi & Hin & Hc & Hw).
    destruct (Hcells i w Hi) as [Hcell _].
    assert (c ∈ Frame.columns df) as Hcol by (apply Hcols; by exists d, name).
    destruct (Hcell c Hcol) as (v & Hv & _ & Hiff).
    rewrite Hv. f_equal. apply Hiff. by exists d, name.
Qed.

(** ** Week enumeration and indicator cells *)




(** C3. When the week column is built (start date and horizon within the range
    of timestamps), before scaling the columns of the frame are the canonical
    identifiers of the retrieved items, and for every week row and every
    column the cell is 0 or 1, and is 1 exactly when some retrieved date of
    that canonical holiday lies in the closed window from the week start to
    six days later; a week whose window holds no retrieved date has an
    all-zero row. *)
Theorem indicator_cell_iff {Exn : Type}
    (OutOfBoundsDatetime : Exn)
    (US : list Z → result Exn (list (Z * string)))
    (end_date : Z) (time_period : nat) (items : list (Z * string)) :
  Timestamp.within end_date time_period →
  US (unique_years end_date time_period) = Ok items →
  ∃ df, indicator_frame OutOfBoundsDatetime US end_date time_period = Ok df ∧
    (∀ c, c ∈ Frame.columns df ↔
          ∃ date name, (date, name) ∈ items ∧ standardized_name name = c) ∧
    ∀ (i : nat) (w : Z),
      week_starts end_date time_period !! i = Some w →
      (∀ c, c ∈ Frame.columns df →
         ∃ v, Frame.at_get i c df = Some v ∧ (v = 0 ∨ v = 1) ∧
           (v = 1 ↔ ∃ date name, (date, name) ∈ items ∧
                      standardized_name name = c ∧ w ≤ date ≤ w + 6)) ∧
      ((∀ date name, (date, name) ∈ items → ¬ (w ≤ date ≤ w + 6)) →
         Frame.rows df !! i = Some (replicate (length (Frame.columns df)) 0)).
Proof. apply indicator_frame_cells. Qed.

Lemma indicator_cell_iff_witness :
  ∃ df, indicator_frame out_of_bounds us_calendar (Calendar.ymd 2023 12 10) 4 = Ok df ∧
    (∀ c, c ∈ Frame.columns df ↔
       ∃ date name, (date, name) ∈ us_holidays_2023_2024 ∧ standardized_name name = c).
Proof.
  destruct (indicator_cell_iff out_of_bounds us_calendar (Calendar.ymd 2023 12 10) 4
              us_holidays_2023_2024 ltac:(timestamps) eq_refl)
    as (df & Hdf & Hcols & _).
  exists df. split; [exact Hdf | exact Hcols].
Defined.

(** C8. Two calls with the same start date and horizon (within the range of
    timestamps) whose calendars hold the same items, iterated in any two
    orders, build the same frame: the same columns in the same order, namely
    the canonical names in order of first appearance among the items sorted by
    date, and exactly [time_period] rows. *)
Theorem column_order_stable {Exn : Type}
    (OutOfBoundsDatetime : Exn)
    (US1 US2 : list Z → result Exn (list (Z * string)))
    (end_date : Z) (time_period : nat) (items1 items2 : list (Z * string)) :
  Timestamp.within end_date time_period →
  US1 (unique_years end_date time_period) = Ok items1 →
  US2 (unique_years end_date time_period) = Ok items2 →
  items1 ≡ₚ items2 →
  ∃ df, indicator_frame OutOfBoundsDatetime US1 end_date time_period = Ok df ∧
        indicator_frame OutOfBoundsDatetime US2 end_date time_period = Ok df ∧
        length (Frame.rows df) = time_period ∧
        Frame.columns df = unique (standardized_name <$> (sorted items1).*2).
Proof.
  intros Hrange H1 H2 Hp. rewrite !indicator_frame_eq, H1, H2 by done. simpl.
  unfold build_holiday_dict. rewrite <- (sorted_Permutation _ _ Hp).
  eexists. split; [done|]. split; [done|]. simpl. split.
  - unfold indicator_matrix. by rewrite length_fmap, week_starts_length.
  - apply fold_keys_order.
Qed.

Lemma column_order_stable_witness :
  ∃ df, indicator_frame out_of_bounds us_calendar (Calendar.ymd 2023 12 10) 4 = Ok df ∧
        indicator_frame out_of_bounds us_calendar_reversed (Calendar.ymd 2023 12 10) 4
        = Ok df ∧
        length (Frame.rows df) = 4%nat.
Proof.
  destruct (column_order_stable out_of_bounds us_calendar us_calendar_reversed
              (Calendar.ymd 2023 12 10) 4 _ _ ltac:(timestamps) eq_refl eq_refl
              (Permutation_sym (reverse_Permutation _)))
    as (df & H1 & H2 & Hlen & _).
  exists df. split; [exact H1|]. split; [exact H2 | exact Hlen].
Defined.

(** ** Years of the retrieved holidays *)

(** C10 (amended). Within the range of timestamps, the calendar is asked
    for exactly the years that contain a week start (a calendar that raises
    its argument shows the argument). Hence, for a calendar that answers with
    its entries of the requested years, an entry of another year, such as
    January 1st of a following year into which the last window extends, is
    not retrieved: a column exists exactly for the canonical holidays with an
    entry in a requested year, a cell is 1 exactly when an entry of a
    requested year with that canonical name lies in the window of the week,
    and a column whose only dates in the window belong to a year with no
    week start is not marked there. The column of a holiday that falls on
    such an extension date is nevertheless 1 when a retrieved entry of the
    same canonical name lies in the window, such as an observed date on
    December 31st. *)
Theorem holidays_of_week_start_years_only {Exn : Type}
    (OutOfBoundsDatetime : Exn)
    (US : list Z → result Exn (list (Z * string)))
    (calendar : list (Z * string)) (end_date : Z) (time_period : nat) :
  Timestamp.within end_date time_period →
  US (unique_years end_date time_period)
  = Ok (filter (fun it => Calendar.year_of it.1 ∈ unique_years end_date time_period)
               calendar) →
  (∀ y, y ∈ unique_years end_date time_period ↔
        ∃ w, w ∈ week_starts end_date time_period ∧ Calendar.year_of w = y) ∧
  (∀ asked : list Z → Exn,
     indicator_frame OutOfBoundsDatetime (fun years => Raise (asked years))
       end_date time_period
     = Raise (asked (unique_years end_date time_period))) ∧
  ∃ df, indicator_frame OutOfBoundsDatetime US end_date time_period = Ok df ∧
    (∀ c, c ∈ Frame.columns df ↔
          ∃ date name, (date, name) ∈ calendar ∧ standardized_name name = c ∧
            Calendar.year_of date ∈ unique_years end_date time_period) ∧
    (∀ (i : nat) (c : string),
       Frame.at_get i c df = Some 1 ↔
       ∃ w date name, week_starts end_date time_period !! i = Some w ∧
         (date, name) ∈ calendar ∧ standardized_name name = c ∧
         w ≤ date ≤ w + 6 ∧
         Calendar.year_of date ∈ unique_years end_date time_period) ∧
    (∀ (i : nat) (w : Z) (c : string),
       week_starts end_date time_period !! i = Some w →
       (∀ date name, (date, name) ∈ calendar → standardized_name name = c →
          w ≤ date ≤ w + 6 →
          Calendar.year_of date ∉ unique_years end_date time_period) →
       Frame.at_get i c df ≠ Some 1).
Proof.
  intros Hrange HUS. split; [apply elem_of_unique_years|].
  split; [intros asked; by rewrite indicator_frame_eq|].
  destruct (indicator_frame_cells OutOfBoundsDatetime US _ _ _ Hrange HUS)
    as (df & Hdf & Hcols & _).
  destruct (indicator_frame_marks OutOfBoundsDatetime US _ _ _ Hrange HUS)
    as (df' & Hdf' & Hmarks).
  rewrite Hdf in Hdf'. injection Hdf' as <-.
  assert (∀ (i : nat) (c : string),
       Frame.at_get i c df = Some 1 ↔
       ∃ w date name, week_starts end_date time_period !! i = Some w ∧
         (date, name) ∈ calendar ∧ standardized_name name = c ∧
         w ≤ date ≤ w + 6 ∧
         Calendar.year_of date ∈ unique_years end_date time_period) as Hiff.
  { intros i c. rewrite Hmarks. split.
    - intros (w & d & name & Hi & [Hy Hin]%list_elem_of_filter & Hc & Hw).
      by exists w, d, name.
    - intros (w & d & name & Hi & Hin & Hc & Hw & Hy). exists w, d, name.
      split; [done|]. split; [by apply list_elem_of_filter|]. done. }
  exists df. split; [done|]. split; [|split; [exact Hiff|]].
  - intros c. rewrite Hcols. split.
    + intros (d & name & [Hy Hin]%list_elem_of_filter & Hc). by exists d, name.
    + intros (d & name & Hin & Hc & Hy). exists d, name. split; [|done].
      by apply list_elem_of_filter.
  - intros i w c Hi Hext Hget.
    apply Hiff in Hget as (w' & d & name & Hi' & Hin & Hc & Hw & Hy).
    rewrite Hi in Hi'. injection Hi' as <-. by apply (Hext d name).
Qed.

Lemma holidays_of_week_start_years_only_witness :
  (∀ y, y ∈ unique_years (Calendar.ymd 2023 12 24) 1 ↔
        ∃ w, w ∈ week_starts (Calendar.ymd 2023 12 24) 1 ∧ Calendar.year_of w = y) ∧
  ∃ df, indicator_frame out_of_bounds us_calendar (Calendar.ymd 2023 12 24) 1 = Ok df ∧
    (∀ c, c ∈ Frame.columns df ↔
          ∃ date name, (date, name) ∈ us_holidays_2023_2024 ∧
            standardized_name name = c ∧
            Calendar.year_of date ∈ unique_years (Calendar.ymd 2023 12 24) 1).
Proof.
  destruct (holidays_of_week_start_years_only out_of_bounds us_calendar
              us_holidays_2023_2024 (Calendar.ymd 2023 12 24) 1
              ltac:(timestamps) eq_refl) as (Hy & _ & df & Hdf & Hcols & _).
  split; [exact Hy|]. exists df. split; [exact Hdf | exact Hcols].
Defined.

(** New Year's Day 2024 lies in the window of the week starting
    2023-12-31, only 2023 is retrieved, and the row is all zero. *)
Example new_year_2024_outside_retrieved_years :
  unique_years (Calendar.ymd 2023 12 24) 1 = [2023] ∧
  week_starts (Calendar.ymd 2023 12 24) 1 = [Calendar.ymd 2023 12 31] ∧
  Calendar.ymd 2023 12 31 ≤ Calendar.ymd 2024 1 1 ≤ Calendar.ymd 2023 12 31 + 6 ∧
  (Calendar.ymd 2024 1 1, "New Year's Day") ∈ us_holidays_2023_2024 ∧
  Frame.to_numpy <$> (match indicator_frame out_of_bounds us_calendar
                                             (Calendar.ymd 2023 12 24) 1 with
                      | Ok df => Some df | _ => None end)
  = Some [[0; 0; 0; 0; 0; 0; 0; 0; 0; 0; 0]].
Proof.
  split; [reflexivity|]. split; [reflexivity|]. split; [by vm_compute|].
  split; [|vm_compute; reflexivity].
  by apply (list_elem_of_lookup_2 _ 13%nat).
Qed.

(** A holiday with entries in a later year only has no column. *)
Example column_absent_when_year_not_retrieved :
  indicator_frame out_of_bounds
    (fun years => Ok (filter (fun it => Calendar.year_of it.1 ∈ years)
                             [(Calendar.ymd 2024 1 1, "New Year's Day")]) : result string _)
    (Calendar.ymd 2023 12 24) 1
  = Ok (Frame.mk [] [[]]).
Proof. vm_compute. reflexivity. Qed.

(** Counterexample to C10 as stated: from the start date 2021-12-20 with
    horizon 1 the only week starts on 2021-12-27 and its window extends to
    2022-01-02; only 2021 is retrieved. New Year's Day falls on the
    extension date 2022-01-01, in a year with no week start, and yet its
    column is 1 in that week: the retrieved entry of 2021-12-31,
    "New Year's Day (observed)", has the same canonical name. *)
Lemma new_year_marked_through_observed_date :
  unique_years (Calendar.ymd 2021 12 20) 1 = [2021] ∧
  week_starts (Calendar.ymd 2021 12 20) 1 = [Calendar.ymd 2021 12 27] ∧
  Calendar.ymd 2021 12 27 + 6 = Calendar.ymd 2022 1 2 ∧
  (Calendar.ymd 2022 1 1, "New Year's Day") ∈ us_holidays_2021_2022 ∧
  (Calendar.year_of (Calendar.ymd 2022 1 1)
   ∉ unique_years (Calendar.ymd 2021 12 20) 1) ∧
  (df ← indicator_frame out_of_bounds us_calendar_2021_2022 (Calendar.ymd 2021 12 20) 1;
   pandas (Frame.at_get 0 (standardized_name "New Year's Day") df)) = Ok 1.
Proof.
  split; [reflexivity|]. split; [reflexivity|]. split; [reflexivity|].
  split; [by apply (list_elem_of_lookup_2 _ 15%nat)|].
  split; [|vm_compute; reflexivity].
  vm_compute. intros [=]%list_elem_of_singleton.
Qed.

Lemma us_2024_new_year date name :
  (date, name) ∈ filter (fun it => Calendar.year_of it.1 ∈ [2024]) us_holidays_2023_2024 →
  standardized_name name = standardized_name "New Year's Day" →
  date = Calendar.ymd 2024 1 1.
Proof.
  intros Hin Hname. vm_compute in Hin.
  repeat (apply elem_of_cons in Hin as [Hin|Hin];
          [injection Hin as -> ->; first [reflexivity | discriminate Hname]|]).
  by apply elem_of_nil in Hin.
Qed.

(** C1 (amended). For start date 2023-12-31 and horizon 2 the week starts
    are 2024-01-07 and 2024-01-14 and the New Year column is 1 in neither
    row (the 2024 calendar has New Year's Day on January 1st only). For start
    date 2023-12-24 and horizon 1 the single window is
    [[2023-12-31, 2024-01-06]]; the canonical identifier of "New Year's Day"
    is "hldy_new_year_day", not "hldy_new_years_day", and a column of that
    row is 1 exactly when an item the builder retrieved has that canonical
    name and a date inside the window. *)
Theorem new_year_scenarios {Exn : Type}
    (OutOfBoundsDatetime : Exn)
    (US : list Z → result Exn (list (Z * string)))
    (items2024 items : list (Z * string)) :
  US [2024] = Ok items2024 →
  (∀ date name, (date, name) ∈ items2024 →
     standardized_name name = standardized_name "New Year's Day" →
     date = Calendar.ymd 2024 1 1) →
  US (unique_years (Calendar.ymd 2023 12 24) 1) = Ok items →
  week_starts (Calendar.ymd 2023 12 31) 2
  = [Calendar.ymd 2024 1 7; Calendar.ymd 2024 1 14] ∧
  (∃ df, indicator_frame OutOfBoundsDatetime US (Calendar.ymd 2023 12 31) 2 = Ok df ∧
         ∀ i, Frame.at_get i (standardized_name "New Year's Day") df ≠ Some 1) ∧
  week_starts (Calendar.ymd 2023 12 24) 1 = [Calendar.ymd 2023 12 31] ∧
  Calendar.ymd 2023 12 31 + 6 = Calendar.ymd 2024 1 6 ∧
  standardized_name "New Year's Day" = "hldy_new_year_day" ∧
  standardized_name "New Year's Day" ≠ "hldy_new_years_day" ∧
  (∃ df, indicator_frame OutOfBoundsDatetime US (Calendar.ymd 2023 12 24) 1 = Ok df ∧
         ∀ c, Frame.at_get 0 c df = Some 1 ↔
              ∃ date name, (date, name) ∈ items ∧ standardized_name name = c ∧
                Calendar.ymd 2023 12 31 ≤ date ≤ Calendar.ymd 2024 1 6).
Proof.
  intros H2024 Hny Hitems.
  assert (Calendar.ymd 2023 12 31 = 738885) as E31 by reflexivity.
  assert (Calendar.ymd 2024 1 1 = 738886) as E1 by reflexivity.
  split; [reflexivity|]. split.
  { destruct (indicator_frame_marks OutOfBoundsDatetime US (Calendar.ymd 2023 12 31) 2
                items2024 ltac:(timestamps) H2024) as (df & Hdf & Hmarks).
    exists df. split; [done|]. intros i Hget.
    apply Hmarks in Hget as (w & d & name & Hi & Hin & Hc & Hw).
    rewrite (Hny d name Hin Hc), E1 in Hw.
    unfold week_starts in Hi. rewrite E31 in Hi.
    destruct i as [|[|i]]; simpl in Hi; [| |done]; injection Hi as <-; lia. }
  split; [reflexivity|]. split; [reflexivity|]. split; [reflexivity|].
  split; [discriminate|].
  destruct (indicator_frame_marks OutOfBoundsDatetime US (Calendar.ymd 2023 12 24) 1
              items ltac:(timestamps) Hitems) as (df & Hdf & Hmarks).
  exists df. split; [done|]. intros c. rewrite Hmarks. split.
  - intros (w & d & name & Hi & Hin & Hc & Hw).
    injection Hi as <-. by exists d, name.
  - intros (d & name & Hin & Hc & Hw). by exists (Calendar.ymd 2023 12 31), d, name.
Qed.

Lemma new_year_scenarios_witness :
  (∃ df, indicator_frame out_of_bounds us_calendar (Calendar.ymd 2023 12 31) 2 = Ok df ∧
         ∀ i, Frame.at_get i (standardized_name "New Year's Day") df ≠ Some 1) ∧
  standardized_name "New Year's Day" = "hldy_new_year_day".
Proof.
  destruct (new_year_scenarios out_of_bounds us_calendar _ _
              eq_refl us_2024_new_year eq_refl)
    as (_ & H1 & _ & _ & H2 & _).
  split; [exact H1 | exact H2].
Defined.

(** Counterexample to C1 as stated: at the US calendar, start date
    2023-12-24 and horizon 1 give a frame with no column named
    "hldy_new_years_day" and a row of zeros, the New Year column included. *)
Lemma new_years_day_not_marked :
  indicator_frame out_of_bounds us_calendar (Calendar.ymd 2023 12 24) 1
  = Ok (Frame.mk
          ["hldy_new_year_day"; "hldy_martin_luther_king_jr_day";
           "hldy_washington_birthday"; "hldy_memorial_day";
           "hldy_juneteenth_national_independence_day"; "hldy_independence_day";
           "hldy_labor_day"; "hldy_columbus_day"; "hldy_veterans_day";
           "hldy_thanksgiving"; "hldy_christmas_day"]
          [[0; 0; 0; 0; 0; 0; 0; 0; 0; 0; 0]]) ∧
  (df ← indicator_frame out_of_bounds us_calendar (Calendar.ymd 2023 12 24) 1;
   pandas (Frame.at_get 0 "hldy_new_years_day" df)) ≠ Ok 1.
Proof. split; [vm_compute; reflexivity | vm_compute; discriminate]. Qed.

(** ** A calendar without data *)

(** C5 (amended). When the calendar is asked (the week starts are
    timestamps) and returns no item for the years of the week starts, the
    builder raises nothing of its own: the frame has no column and
    [time_period] empty rows, and the builder returns whatever the covariate
    scaler returns on that matrix. When the calendar itself raises, the
    exception reaches the caller. *)
Theorem empty_calendar_reaches_scaler {Exn Matrix : Type}
    (OutOfBoundsDatetime : Exn)
    (US : list Z → result Exn (list (Z * string)))
    (extra_scaler_transform : list (list Z) → result Exn Matrix)
    (end_date : Z) (time_period : nat) :
  Timestamp.within end_date time_period →
  (US (unique_years end_date time_period) = Ok [] →
     indicator_frame OutOfBoundsDatetime US end_date time_period
     = Ok (Frame.mk [] (replicate time_period [])) ∧
     add_holiday_columns_to_array OutOfBoundsDatetime US extra_scaler_transform
       end_date time_period
     = extra_scaler_transform (replicate time_period [])) ∧
  (∀ e, US (unique_years end_date time_period) = Raise e →
     add_holiday_columns_to_array OutOfBoundsDatetime US extra_scaler_transform
       end_date time_period
     = Raise e).
Proof.
  assert (indicator_matrix [] (week_starts end_date time_period)
          = replicate time_period []) as Hm.
  { unfold indicator_matrix, week_starts. generalize 1%nat.
    induction time_period as [|n IH]; intros a; simpl; [done|]. by rewrite IH. }
  intros Hrange. split.
  - intros HUS. rewrite builder_eq, indicator_frame_eq, HUS by done. simpl.
    change (build_holiday_dict []) with (@nil (string * gset Z)).
    by rewrite Hm.
  - intros e HUS. by rewrite builder_eq, HUS by done.
Qed.

Lemma empty_calendar_reaches_scaler_witness :
  add_holiday_columns_to_array out_of_bounds empty_calendar identity_scaler
    (Calendar.ymd 2023 12 31) 2
  = identity_scaler (replicate 2 []).
Proof.
  exact (proj2 (proj1 (empty_calendar_reaches_scaler out_of_bounds empty_calendar
                         identity_scaler (Calendar.ymd 2023 12 31) 2
                         ltac:(timestamps)) eq_refl)).
Defined.

(** Counterexample to C5 as stated: with no calendar data and a scaler that
    accepts the matrix, the builder returns two rows of no column. *)
Lemma empty_calendar_returns_empty_matrix :
  add_holiday_columns_to_array out_of_bounds empty_calendar identity_scaler
    (Calendar.ymd 2023 12 31) 2
  = Ok [[]; []].
Proof. reflexivity. Qed.

(** ** The allocation orchestrator *)

(** C6. Whenever the builder returns a covariate matrix, the allocator's
    result is the solver's answer to one call: the horizon, the model, that
    matrix, the budget, the prices and the two scalers as given, lower bound
    0.05, upper bound 0.95 and seed 1, whatever the solver is. *)
Theorem solver_called_with_fixed_bounds {Exn Matrix num Model Scaler : Type}
    (OutOfBoundsDatetime : Exn)
    (US : list Z → result Exn (list (Z * string)))
    (extra_scaler_transform : list (list Z) → result Exn Matrix)
    (find_optimal_budgets :
       @solver_call Matrix num Model Scaler →
       result Exn (OptimizeResult * num * list num))
    (n_weeks_to_predict : nat) (budget_to_allocate : num) (mmm : Model)
    (media_scaler target_scaler : Scaler) (prices : list num) (end_date : Z)
    (extra : Matrix) :
  add_holiday_columns_to_array OutOfBoundsDatetime US extra_scaler_transform
    end_date n_weeks_to_predict
  = Ok extra →
  ∃ call,
    budget_allocator OutOfBoundsDatetime US extra_scaler_transform find_optimal_budgets
      n_weeks_to_predict budget_to_allocate mmm media_scaler target_scaler
      prices end_date
    = find_optimal_budgets call ∧
    call = Build_solver_call n_weeks_to_predict mmm extra budget_to_allocate
             prices media_scaler target_scaler 0.05 0.95 1 ∧
    bounds_lower_pct call = (5 # 100)%Q ∧
    bounds_upper_pct call = (95 # 100)%Q ∧
    seed call = 1.
Proof.
  intros Hextra. eexists. unfold budget_allocator. rewrite Hextra. simpl.
  split; [reflexivity|]. split; [reflexivity|]. done.
Qed.

Lemma solver_called_with_fixed_bounds_witness :
  ∃ call,
    budget_allocator out_of_bounds us_calendar identity_scaler keeping_solver
      2 1000%Q tt tt tt [2%Q; 5%Q] (Calendar.ymd 2023 12 31)
    = keeping_solver call ∧
    bounds_lower_pct call = (5 # 100)%Q ∧
    bounds_upper_pct call = (95 # 100)%Q ∧
    seed call = 1.
Proof.
  destruct (solver_called_with_fixed_bounds out_of_bounds us_calendar identity_scaler
              keeping_solver
              2 1000%Q tt tt tt [2%Q; 5%Q] (Calendar.ymd 2023 12 31)
              [[0; 0; 0; 0; 0; 0; 0; 0; 0; 0; 0]; [0; 1; 0; 0; 0; 0; 0; 0; 0; 0; 0]]
              ltac:(vm_compute; reflexivity))
    as (call & Hcall & _ & Hlo & Hup & Hseed).
  exists call. split; [exact Hcall|]. split; [exact Hlo|]. split; [exact Hup | exact Hseed].
Defined.

(** C7. When the solver raises [e] on the allocator's call, the allocator
    raises the same [e] (no retry, no fallback value), and the page shows the
    error and no table. *)
Theorem solver_exception_propagates {Exn Matrix num Model Scaler : Type}
    (OutOfBoundsDatetime : Exn)
    (US : list Z → result Exn (list (Z * string)))
    (extra_scaler_transform : list (list Z) → result Exn Matrix)
    (mul add : num → num → num) (zero : num) (round2 astype_float64 : num → num)
    (shape_error : Exn)
    (find_optimal_budgets :
       @solver_call Matrix num Model Scaler →
       result Exn (OptimizeResult * num * list num))
    (n_weeks_to_predict : nat) (budget_to_allocate : num) (mmm : Model)
    (media_scaler target_scaler : Scaler) (prices : list num) (end_date : Z)
    (media_names : list string) (extra : Matrix) (e : Exn) :
  add_holiday_columns_to_array OutOfBoundsDatetime US extra_scaler_transform
    end_date n_weeks_to_predict
  = Ok extra →
  find_optimal_budgets
    (Build_solver_call n_weeks_to_predict mmm extra budget_to_allocate
       prices media_scaler target_scaler 0.05 0.95 1) = Raise e →
  budget_allocator OutOfBoundsDatetime US extra_scaler_transform find_optimal_budgets
    n_weeks_to_predict budget_to_allocate mmm media_scaler target_scaler
    prices end_date = Raise e ∧
  run_budget_allocator OutOfBoundsDatetime US extra_scaler_transform mul add zero round2
    astype_float64 find_optimal_budgets shape_error
    n_weeks_to_predict budget_to_allocate mmm media_scaler target_scaler
    prices end_date media_names = Ok (ErrorMessage e).
Proof.
  intros Hextra Hsolver.
  assert (budget_allocator OutOfBoundsDatetime US extra_scaler_transform find_optimal_budgets
            n_weeks_to_predict budget_to_allocate mmm media_scaler target_scaler
            prices end_date = Raise e) as Hb.
  { unfold budget_allocator. rewrite Hextra. simpl. exact Hsolver. }
  split; [exact Hb|]. unfold run_budget_allocator. by rewrite Hb.
Qed.

Lemma solver_exception_propagates_witness :
  budget_allocator out_of_bounds us_calendar identity_scaler failing_solver
    2 1000%Q tt tt tt [2%Q; 5%Q] (Calendar.ymd 2023 12 31)
  = Raise "infeasible bounds" ∧
  run_budget_allocator out_of_bounds us_calendar identity_scaler Qmult Qplus 0%Q Qround2 id
    failing_solver "shape mismatch" 2 1000%Q tt tt tt [2%Q; 5%Q]
    (Calendar.ymd 2023 12 31) ["tv"; "radio"]
  = Ok (ErrorMessage "infeasible bounds").
Proof.
  exact (solver_exception_propagates out_of_bounds us_calendar identity_scaler Qmult Qplus 0%Q
           Qround2 id "shape mismatch" failing_solver
           2 1000%Q tt tt tt [2%Q; 5%Q] (Calendar.ymd 2023 12 31) ["tv"; "radio"]
           [[0; 0; 0; 0; 0; 0; 0; 0; 0; 0; 0]; [0; 1; 0; 0; 0; 0; 0; 0; 0; 0; 0]]
           "infeasible bounds" ltac:(vm_compute; reflexivity) eq_refl).
Defined.

Section Report.
Context {Exn num : Type}.
Variables (mul add : num → num → num) (zero : num).
Variables (round2 astype_float64 : num → num).
Variable shape_error : Exn.

Lemma array_mul_aligned (a b : list num) :
  length a = length b → array_mul (Exn:=Exn) mul shape_error a b = Ok (zip_with mul a b).
Proof. intros H. unfold array_mul. by rewrite decide_True. Qed.

Lemma table_data_aligned (media_names : list string) (prices : list num)
    (solution : OptimizeResult) (previous_media_allocation : list num) :
  length prices = length media_names →
  length previous_media_allocation = length media_names →
  length (x solution) = length media_names →
  let previous_currency := round2 <$> zip_with mul prices previous_media_allocation in
  let optimal_currency := round2 <$> zip_with mul prices (x solution) in
  ∃ channel_rows,
    table_data mul add zero round2 astype_float64 shape_error media_names prices
      solution previous_media_allocation
    = Ok (previous_currency, optimal_currency,
          channel_rows ++ [("Total", array_sum add zero optimal_currency,
                                     array_sum add zero previous_currency)]) ∧
    length channel_rows = length media_names ∧
    channel_rows.*1.*1 = media_names.
Proof.
  intros Hp Hprev Hx previous_currency optimal_currency. unfold table_data.
  rewrite !array_mul_aligned by congruence. simpl.
  fold previous_currency optimal_currency.
  assert (length optimal_currency = length media_names) as Ho.
  { unfold optimal_currency. rewrite length_fmap, length_zip_with. lia. }
  assert (length previous_currency = length media_names) as Hpc.
  { unfold previous_currency. rewrite length_fmap, length_zip_with. lia. }
  unfold data_frame3. rewrite decide_True by (split; congruence). simpl.
  eexists. split; [reflexivity|]. split.
  - rewrite !length_fmap, !length_zip_with. lia.
  - rewrite <- !list_fmap_compose.
    transitivity ((zip (zip media_names optimal_currency) previous_currency).*1.*1).
    + rewrite <- list_fmap_compose. apply list_fmap_ext. by intros _ [[m o] p] _.
    + rewrite !fst_zip; [done|lia|rewrite length_zip_with; lia].
Qed.
End Report.

(** C2. For aligned prices, previous allocation, solution and channel
    names, the previous currency vector is [round2] of the elementwise
    product of prices and previous allocation, the optimal currency vector is
    [round2] of the elementwise product of prices and [solution.x], and the
    table ends with the row "Total" holding the sums of the optimal and of
    the previous currency vector. With prices [[2, 5]], previous allocation
    [[10, 4]] and solution [[8, 5]] in exact decimal arithmetic the vectors
    are [[20, 20]] and [[16, 25]] and the last row is ("Total", 41, 40). *)
Theorem currency_table {Exn num : Type}
    (mul add : num → num → num) (zero : num) (round2 astype_float64 : num → num)
    (shape_error : Exn)
    (media_names : list string) (prices : list num)
    (solution : OptimizeResult) (previous_media_allocation : list num) :
  length prices = length media_names →
  length previous_media_allocation = length media_names →
  length (x solution) = length media_names →
  (∃ channel_rows,
     table_data mul add zero round2 astype_float64 shape_error media_names prices
       solution previous_media_allocation
     = Ok (round2 <$> zip_with mul prices previous_media_allocation,
           round2 <$> zip_with mul prices (x solution),
           channel_rows ++
             [("Total",
               array_sum add zero (round2 <$> zip_with mul prices (x solution)),
               array_sum add zero
                 (round2 <$> zip_with mul prices previous_media_allocation))]) ∧
     length channel_rows = length media_names ∧
     channel_rows.*1.*1 = media_names) ∧
  (∀ (m1 m2 : string) (kpi : Q),
     table_data Qmult Qplus 0%Q Qround2 id shape_error [m1; m2] [2%Q; 5%Q]
       {| x := [8%Q; 5%Q]; fun_ := kpi |} [10%Q; 4%Q]
     = Ok ([20%Q; 20%Q], [16%Q; 25%Q],
           [(m1, 16%Q, 20%Q); (m2, 25%Q, 20%Q); ("Total", 41%Q, 40%Q)])).
Proof.
  intros Hp Hprev Hx. split.
  - by apply table_data_aligned.
  - intros m1 m2 kpi. reflexivity.
Qed.

Lemma currency_table_witness :
  ∃ channel_rows,
    table_data Qmult Qplus 0%Q Qround2 id "shape mismatch" ["tv"; "radio"; "web"]
      [2%Q; 5%Q; 0.333%Q] {| x := [8%Q; 5%Q; 1%Q]; fun_ := 0%Q |} [10%Q; 4%Q; 2%Q]
    = Ok ([20%Q; 20%Q; 0.67%Q], [16%Q; 25%Q; 0.33%Q],
          channel_rows ++ [("Total", 41.33%Q, 40.67%Q)]).
Proof.
  destruct (currency_table Qmult Qplus 0%Q Qround2 id "shape mismatch"
              ["tv"; "radio"; "web"] [2%Q; 5%Q; 0.333%Q]
              {| x := [8%Q; 5%Q; 1%Q]; fun_ := 0%Q |} [10%Q; 4%Q; 2%Q]
              eq_refl eq_refl eq_refl) as [(rows & Hrows & _) _].
  exists rows. exact Hrows.
Defined.

(** ** Canonicalization of holiday labels *)

Section StringFacts.
Import PyStr.

Lemma has_char_app c s t : has_char c (s +:+ t) = has_char c s || has_char c t.
Proof. induction s as [|b s IH]; simpl; [done|]. by case_decide. Qed.

Lemma contains_no_char c rest s :
  has_char c s = false → contains (String c rest) s = false.
Proof.
  induction s as [|b s IH]; simpl; [done|].
  case_decide as Hb; [done|]. intros Hs. by rewrite IH.
Qed.

Lemma replace_absent old new s :
  contains old s = false → replace old new s = s.
Proof.
  unfold replace. induction s as [|b s IH]; simpl; [done|].
  intros [-> Hc]%orb_false_iff. by rewrite IH.
Qed.

Lemma split_head_absent sep s :
  contains sep s = false → split_head sep s = s.
Proof.
  induction s as [|b s IH]; simpl; [done|].
  intros [-> Hc]%orb_false_iff. by rewrite IH.
Qed.

Lemma replace_from_no_char c old new s : ∀ skip,
  has_char c s = false → has_char c new = false →
  has_char c (replace_from skip old new s) = false.
Proof.
  induction s as [|b s IH]; intros skip Hs Hn; simpl in *; [done|].
  case_decide as Hb; [done|].
  destruct skip as [|k]; [|by apply IH].
  destruct (startswith old (String b s)).
  - rewrite has_char_app, Hn. by apply IH.
  - simpl. rewrite decide_False by done. by apply IH.
Qed.

Lemma replace_char_gone c new s :
  has_char c new = false → has_char c (replace (String c "") new s) = false.
Proof.
  intros Hn. unfold replace. induction s as [|b s IH]; simpl; [done|].
  destruct (decide (c = b)) as [->|Hb].
  - destruct s; simpl; rewrite has_char_app, Hn; exact IH.
  - simpl. by rewrite decide_False.
Qed.

Lemma lower_char_idem b : lower_char (lower_char b) = lower_char b.
Proof. destruct b as [[] [] [] [] [] [] [] []]; reflexivity. Qed.

Lemma lower_idem s : lower (lower s) = lower s.
Proof. induction s as [|b s IH]; simpl; [done|]. by rewrite lower_char_idem, IH. Qed.

Lemma lower_char_space b : lower_char b = " "%char → b = " "%char.
Proof. destruct b as [[] [] [] [] [] [] [] []]; intros H; first [reflexivity|discriminate H]. Qed.

Lemma lower_char_period b : lower_char b = "."%char → b = "."%char.
Proof. destruct b as [[] [] [] [] [] [] [] []]; intros H; first [reflexivity|discriminate H]. Qed.

Lemma lower_no_char c s :
  (∀ b, lower_char b = c → b = c) →
  has_char c s = false → has_char c (lower s) = false.
Proof.
  intros Hc. induction s as [|b s IH]; simpl; [done|].
  case_decide as Hb; [done|]. intros Hs.
  rewrite decide_False; [by apply IH|]. intros Heq. apply Hb. symmetry. by apply Hc.
Qed.
End StringFacts.

Lemma standardized_body_no_space name :
  PyStr.has_char " " (standardized_body name) = false.
Proof.
  unfold standardized_body. apply lower_no_char; [apply lower_char_space|].
  by apply replace_char_gone.
Qed.

Lemma standardized_body_no_period name :
  PyStr.has_char "." (standardized_body name) = false.
Proof.
  unfold standardized_body. apply lower_no_char; [apply lower_char_period|].
  apply replace_from_no_char; [|done]. by apply replace_char_gone.
Qed.

Lemma standardized_body_fixed s :
  PyStr.has_char " " s = false → PyStr.has_char "." s = false →
  PyStr.contains "'s" s = false → PyStr.lower s = s →
  standardized_body s = s.
Proof.
  intros Hsp Hpe Hpos Hlow. unfold standardized_body.
  rewrite split_head_absent by (by apply contains_no_char).
  rewrite (replace_absent "'s") by done.
  rewrite (replace_absent ".") by (by apply contains_no_char).
  rewrite (replace_absent " ") by (by apply contains_no_char).
  done.
Qed.

(** C9 (amended). Canonicalizing a canonical identifier adds a second
    prefix and changes nothing else, and the rule without the prefix is
    idempotent, for every label whose canonical form holds no "'s". *)
Theorem canonicalization_twice (name : string) :
  PyStr.contains "'s" (standardized_body name) = false →
  standardized_body (standardized_body name) = standardized_body name ∧
  standardized_name (standardized_name name) = "hldy_" +:+ standardized_name name.
Proof.
  intros Hpos.
  pose proof (standardized_body_no_space name) as Hsp.
  pose proof (standardized_body_no_period name) as Hpe.
  assert (PyStr.lower (standardized_body name) = standardized_body name) as Hlow.
  { unfold standardized_body at 1. apply lower_idem. }
  split; [by apply standardized_body_fixed|].
  unfold standardized_name at 1. f_equal.
  unfold standardized_name. generalize dependent (standardized_body name).
  intros b Hpos Hsp Hpe Hlow.
  apply standardized_body_fixed; simpl; try done.
  rewrite <- Hlow at 2. reflexivity.
Qed.

Lemma canonicalization_twice_witness :
  standardized_body (standardized_body "Martin Luther King Jr. Day")
  = "martin_luther_king_jr_day" ∧
  standardized_name (standardized_name "Martin Luther King Jr. Day")
  = "hldy_hldy_martin_luther_king_jr_day".
Proof.
  exact (canonicalization_twice "Martin Luther King Jr. Day" eq_refl).
Defined.

(** Counterexample to C9 as stated: the second application adds a second
    prefix. *)
Lemma canonicalization_not_idempotent :
  standardized_name (standardized_name "New Year's Day")
  ≠ standardized_name "New Year's Day".
Proof. discriminate. Qed.

(** Without the prefix the rule is still not idempotent on every label:
    the possessive is removed before the lower-casing. *)
Example canonical_body_not_idempotent_uppercase :
  standardized_body "NEW YEAR'S DAY" = "new_year's_day" ∧
  standardized_body (standardized_body "NEW YEAR'S DAY") = "new_year_day".
Proof. split; reflexivity. Qed.

(** * Further properties of the code *)

(** ** The matrix handed to the scaler *)

Lemma indicator_row_length holiday_dict w :
  length (indicator_row holiday_dict w) = length holiday_dict.*1.
Proof. unfold indicator_row. by rewrite !length_fmap. Qed.

Lemma indicator_row_bits holiday_dict w :
  Forall (fun v => v = 0 ∨ v = 1) (indicator_row holiday_dict w).
Proof.
  unfold indicator_row. apply Forall_fmap, Forall_forall. intros s _. simpl.
  destruct (any_in_week w (w + 6) s); simpl; auto.
Qed.

(** X1. When the week column is built (start date and horizon within the range
    of timestamps) and the calendar answers, the scaler is called on the rows
    of the frame of indicators: [time_period] rows, each with one cell per
    column, every cell 0 or 1. *)
Theorem scaler_receives_rectangular_bits {Exn Matrix : Type}
    (OutOfBoundsDatetime : Exn)
    (US : list Z → result Exn (list (Z * string)))
    (extra_scaler_transform : list (list Z) → result Exn Matrix)
    (end_date : Z) (time_period : nat) (items : list (Z * string)) :
  Timestamp.within end_date time_period →
  US (unique_years end_date time_period) = Ok items →
  ∃ df, indicator_frame OutOfBoundsDatetime US end_date time_period = Ok df ∧
    add_holiday_columns_to_array OutOfBoundsDatetime US extra_scaler_transform
      end_date time_period
    = extra_scaler_transform (Frame.rows df) ∧
    length (Frame.rows df) = time_period ∧
    Forall (fun row => length row = length (Frame.columns df) ∧
                       Forall (fun v => v = 0 ∨ v = 1) row)
           (Frame.rows df).
Proof.
  intros Hrange HUS. rewrite builder_eq, indicator_frame_eq, HUS by done. simpl.
  eexists. split; [done|]. simpl. split; [done|]. split.
  - unfold indicator_matrix. by rewrite length_fmap, week_starts_length.
  - unfold indicator_matrix. apply Forall_fmap, Forall_forall. intros w _. simpl.
    split; [apply indicator_row_length | apply indicator_row_bits].
Qed.

(** X2. Within the range of timestamps, the columns of the frame are pairwise
    distinct, each starts with "hldy_", none is the week column, and there are
    at most as many columns as retrieved items. *)
Theorem columns_are_distinct_holiday_features {Exn : Type}
    (OutOfBoundsDatetime : Exn)
    (US : list Z → result Exn (list (Z * string)))
    (end_date : Z) (time_period : nat) (items : list (Z * string)) :
  Timestamp.within end_date time_period →
  US (unique_years end_date time_period) = Ok items →
  ∃ df, indicator_frame OutOfBoundsDatetime US end_date time_period = Ok df ∧
    NoDup (Frame.columns df) ∧
    ("week" ∉ Frame.columns df) ∧
    (∀ c, c ∈ Frame.columns df → PyStr.startswith "hldy_" c = true) ∧
    (length (Frame.columns df) ≤ length items)%nat.
Proof.
  intros Hrange HUS. rewrite indicator_frame_eq, HUS by done. simpl.
  eexists. split; [done|]. simpl.
  pose proof (build_keys_week items) as [Hw Hnd]%NoDup_cons.
  split; [done|]. split; [done|]. split.
  - intros c (d & name & _ & <-)%build_keys. reflexivity.
  - unfold build_holiday_dict. rewrite <- (Permutation_length (sorted_perm items)).
    generalize (sorted items). intros l.
    assert (∀ m : list (string * gset Z),
              (length (foldl dict_step m l).*1 ≤ length m.*1 + length l)%nat) as H.
    { induction l as [|[d name] l IH]; intros m; simpl; [lia|].
      etrans; [apply IH|]. rewrite setdefault_add_keys.
      case_decide; rewrite ?length_app; simpl; lia. }
    apply (H []).
Qed.

(** ** Shape of the canonical identifiers *)

(** X3. Every canonical identifier starts with "hldy_", holds no space and
    no period, and is unchanged by lower-casing. *)
Theorem standardized_name_is_identifier (name : string) :
  PyStr.startswith "hldy_" (standardized_name name) = true ∧
  PyStr.has_char " " (standardized_name name) = false ∧
  PyStr.has_char "." (standardized_name name) = false ∧
  PyStr.lower (standardized_name name) = standardized_name name.
Proof.
  pose proof (standardized_body_no_space name) as Hsp.
  pose proof (standardized_body_no_period name) as Hpe.
  assert (PyStr.lower (standardized_body name) = standardized_body name) as Hlow.
  { unfold standardized_body at 1. apply lower_idem. }
  unfold standardized_name. generalize dependent (standardized_body name).
  intros b Hsp Hpe Hlow. repeat split; try done.
  rewrite <- Hlow at 2. reflexivity.
Qed.

Lemma split_head_cons sep c s :
  PyStr.split_head sep (String c s)
  = if PyStr.startswith sep (String c s) then EmptyString
    else String c (PyStr.split_head sep s).
Proof. reflexivity. Qed.

Lemma startswith_qualifier c s q :
  PyStr.startswith " (" (String c (s +:+ " (" +:+ q))
  = PyStr.startswith " (" (String c s).
Proof.
  cbn [PyStr.startswith]. case_decide; [|done]. by destruct s.
Qed.

Lemma split_head_qualifier s q :
  PyStr.split_head " (" (s +:+ " (" +:+ q) = PyStr.split_head " (" s.
Proof.
  induction s as [|c s IH]; [done|].
  change (String c s +:+ " (" +:+ q) with (String c (s +:+ " (" +:+ q)).
  by rewrite !split_head_cons, startswith_qualifier, IH.
Qed.

(** X4. A parenthetical qualifier after a label does not change the
    canonical identifier: "X (anything" and "X" get the same one. *)
Theorem qualifier_is_dropped (name qualifier : string) :
  standardized_name (name +:+ " (" +:+ qualifier) = standardized_name name.
Proof.
  unfold standardized_name, standardized_body. by rewrite split_head_qualifier.
Qed.

(** ** The windows of the weeks *)

Lemma week_starts_lookup_Some end_date time_period (i : nat) w :
  week_starts end_date time_period !! i = Some w ↔
  (i < time_period)%nat ∧ w = end_date + 7 * (Z.of_nat i + 1).
Proof.
  split.
  - intros Hi. assert (i < time_period)%nat as Hlt.
    { apply lookup_lt_Some in Hi. by rewrite week_starts_length in Hi. }
    rewrite week_starts_lookup in Hi by done. by injection Hi as <-.
  - intros [Hlt ->]. by apply week_starts_lookup.
Qed.

(** X5. The windows of the weeks do not overlap, and a date lies in one of
    them exactly when it is between 7 days and 7 * horizon + 6 days after
    the start date: the six days right after the start date are in none. *)
Theorem week_windows_tile_the_horizon (end_date : Z) (time_period : nat) (d : Z) :
  (∀ (i j : nat) w w',
     week_starts end_date time_period !! i = Some w →
     week_starts end_date time_period !! j = Some w' →
     w ≤ d ≤ w + 6 → w' ≤ d ≤ w' + 6 → i = j) ∧
  ((∃ (i : nat) w, week_starts end_date time_period !! i = Some w ∧ w ≤ d ≤ w + 6) ↔
   end_date + 7 ≤ d ≤ end_date + 7 * Z.of_nat time_period + 6).
Proof.
  split.
  - intros i j w w' [_ ->]%week_starts_lookup_Some [_ ->]%week_starts_lookup_Some.
    lia.
  - split.
    + intros (i & w & [Hi ->]%week_starts_lookup_Some & Hw). lia.
    + intros Hd. exists (Z.to_nat ((d - end_date) / 7 - 1)), 
        (end_date + 7 * ((d - end_date) / 7)).
      rewrite week_starts_lookup_Some.
      pose proof (Z.div_mod (d - end_date) 7 ltac:(lia)) as Hdm.
      pose proof (Z.mod_pos_bound (d - end_date) 7 ltac:(lia)) as Hm.
      repeat split; lia.
Qed.

(** X6. Within the range of timestamps, a retrieved holiday dated between 7
    and 7 * horizon + 6 days after the start date marks its column with 1 in
    the row of its week, the row number (date - start date) / 7 - 1. *)
Theorem holiday_marks_the_row_of_its_week {Exn : Type}
    (OutOfBoundsDatetime : Exn)
    (US : list Z → result Exn (list (Z * string)))
    (end_date : Z) (time_period : nat) (items : list (Z * string))
    (date : Z) (name : string) :
  Timestamp.within end_date time_period →
  US (unique_years end_date time_period) = Ok items →
  (date, name) ∈ items →
  end_date + 7 ≤ date ≤ end_date + 7 * Z.of_nat time_period + 6 →
  ∃ df, indicator_frame OutOfBoundsDatetime US end_date time_period = Ok df ∧
    Frame.at_get (Z.to_nat ((date - end_date) / 7 - 1)) (standardized_name name) df
    = Some 1.
Proof.
  intros Hrange HUS Hin Hd.
  destruct (indicator_frame_marks OutOfBoundsDatetime US _ _ _ Hrange HUS)
    as (df & Hdf & Hmarks).
  exists df. split; [done|]. apply Hmarks.
  exists (end_date + 7 * ((date - end_date) / 7)), date, name.
  rewrite week_starts_lookup_Some.
  pose proof (Z.div_mod (date - end_date) 7 ltac:(lia)) as Hdm.
  pose proof (Z.mod_pos_bound (date - end_date) 7 ltac:(lia)) as Hm.
  repeat split; try done; lia.
Qed.

(** X7. Within the range of timestamps, a column whose retrieved dates all
    fall before the first window or after the last one exists (when it has a
    retrieved date) and is 1 in no row. *)
Theorem holiday_outside_the_windows_marks_nothing {Exn : Type}
    (OutOfBoundsDatetime : Exn)
    (US : list Z → result Exn (list (Z * string)))
    (end_date : Z) (time_period : nat) (items : list (Z * string)) (c : string) :
  Timestamp.within end_date time_period →
  US (unique_years end_date time_period) = Ok items →
  (∀ date name, (date, name) ∈ items → standardized_name name = c →
     date < end_date + 7 ∨ end_date + 7 * Z.of_nat time_period + 6 < date) →
  ∃ df, indicator_frame OutOfBoundsDatetime US end_date time_period = Ok df ∧
    (c ∈ Frame.columns df ↔ ∃ date name, (date, name) ∈ items ∧ standardized_name name = c) ∧
    ∀ i, Frame.at_get i c df ≠ Some 1.
Proof.
  intros Hrange HUS Hout.
  destruct (indicator_frame_cells OutOfBoundsDatetime US _ _ _ Hrange HUS)
    as (df & Hdf & Hcols & _).
  destruct (indicator_frame_marks OutOfBoundsDatetime US _ _ _ Hrange HUS)
    as (df' & Hdf' & Hmarks).
  rewrite Hdf in Hdf'. injection Hdf' as <-.
  exists df. split; [done|]. split; [apply Hcols|].
  intros i (w & d & name & [Hi ->]%week_starts_lookup_Some & Hin & Hc & Hw)%Hmarks.
  destruct (Hout d name Hin Hc); lia.
Qed.

(** ** Order of the columns *)

Lemma item_le_date x y : item_le x y → x.1 ≤ y.1.
Proof. unfold item_le. rewrite item_leb_spec. lia. Qed.

Lemma fold_keys_chronological l : ∀ seen : list string,
  StronglySorted item_le l →
  ∃ K, foldl unique_step seen (standardized_name <$> l.*2) = seen ++ K ∧
    (∀ c, c ∈ K → c ∉ seen) ∧
    ∀ (i j : nat) c1 c2, (i < j)%nat → K !! i = Some c1 → K !! j = Some c2 →
      ∃ d1 n1, (d1, n1) ∈ l ∧ standardized_name n1 = c1 ∧
        ∀ d2 n2, (d2, n2) ∈ l → standardized_name n2 = c2 → d1 ≤ d2.
Proof.
  induction l as [|[d n] l IH]; intros seen Hs.
  - exists []. simpl. rewrite app_nil_r. split; [done|]. split.
    + intros c Hc. by apply elem_of_nil in Hc.
    + intros i j c1 c2 _ Hi. done.
  - apply StronglySorted_inv in Hs as [Hs Hhd]. cbn [fmap list_fmap foldl snd].
    unfold unique_step at 2. case_decide as Hseen.
    + destruct (IH seen Hs) as (K & -> & Hnew & Hord). exists K.
      split; [done|]. split; [done|].
      intros i j c1 c2 Hij Hi Hj.
      destruct (Hord i j c1 c2 Hij Hi Hj) as (d1 & n1 & Hin & Hc1 & Hmin).
      exists d1, n1. split; [by apply elem_of_cons; right|]. split; [done|].
      intros d2 n2 [Heq|Hin2]%elem_of_cons Hc2; [|by eapply Hmin].
      injection Heq as -> ->. exfalso. apply (Hnew c2); [|by rewrite <- Hc2].
      by eapply list_elem_of_lookup_2.
    + destruct (IH (seen ++ [standardized_name n]) Hs) as (K & -> & Hnew & Hord).
      exists (standardized_name n :: K). split; [by rewrite <- app_assoc|]. split.
      * intros c [->|Hc]%elem_of_cons; [done|].
        intros Hin. apply (Hnew c Hc). apply elem_of_app. by left.
      * intros i j c1 c2 Hij Hi Hj.
        destruct j as [|j]; [lia|]. simpl in Hj.
        assert (c2 ≠ standardized_name n) as Hc2n.
        { intros ->. apply (Hnew (standardized_name n)).
          - by eapply list_elem_of_lookup_2.
          - apply elem_of_app. right. by apply list_elem_of_singleton. }
        destruct i as [|i]; simpl in Hi.
        -- injection Hi as <-. exists d, n. split; [apply elem_of_cons; by left|].
           split; [done|]. intros d2 n2 [Heq|Hin2]%elem_of_cons Hc2.
           ++ by injection Heq as -> ->.
           ++ rewrite Forall_forall in Hhd. apply (item_le_date _ _ (Hhd _ Hin2)).
        -- destruct (Hord i j c1 c2 ltac:(lia) Hi Hj) as (d1 & n1 & Hin & Hc1 & Hmin).
           exists d1, n1. split; [by apply elem_of_cons; right|]. split; [done|].
           intros d2 n2 [Heq|Hin2]%elem_of_cons Hc2; [|by eapply Hmin].
           injection Heq as -> ->. by destruct Hc2n.
Qed.

(** X8. Within the range of timestamps, the columns stand in the order of the
    earliest retrieved date of their holiday: a column to the left has a date
    no later than every date of a column to its right. *)
Theorem columns_in_order_of_first_date {Exn : Type}
    (OutOfBoundsDatetime : Exn)
    (US : list Z → result Exn (list (Z * string)))
    (end_date : Z) (time_period : nat) (items : list (Z * string)) :
  Timestamp.within end_date time_period →
  US (unique_years end_date time_period) = Ok items →
  ∃ df, indicator_frame OutOfBoundsDatetime US end_date time_period = Ok df ∧
    ∀ (i j : nat) c1 c2, (i < j)%nat →
      Frame.columns df !! i = Some c1 → Frame.columns df !! j = Some c2 →
      ∃ d1 n1, (d1, n1) ∈ items ∧ standardized_name n1 = c1 ∧
        ∀ d2 n2, (d2, n2) ∈ items → standardized_name n2 = c2 → d1 ≤ d2.
Proof.
  intros Hrange HUS. rewrite indicator_frame_eq, HUS by done. simpl. eexists. split; [done|].
  simpl. unfold build_holiday_dict. rewrite fold_keys_order. simpl.
  destruct (fold_keys_chronological (sorted items) [])
    as (K & -> & _ & Hord).
  { apply StronglySorted_merge_sort; [exact item_le_trans | exact item_le_total]. }
  simpl. intros i j c1 c2 Hij Hi Hj.
  destruct (Hord i j c1 c2 Hij Hi Hj) as (d1 & n1 & Hin & Hc1 & Hmin).
  exists d1, n1. split; [by rewrite <- (sorted_perm items)|]. split; [done|].
  intros d2 n2 Hin2. apply Hmin. by rewrite (sorted_perm items).
Qed.

(** ** Paths through the allocator and the report *)

Section Allocation.
Context {Exn Matrix num Model Scaler : Type}.
Variable OutOfBoundsDatetime : Exn.
Variable US : list Z → result Exn (list (Z * string)).
Variable extra_scaler_transform : list (list Z) → result Exn Matrix.
Variables (mul add : num → num → num) (zero : num).
Variables (round2 astype_float64 : num → num).
Variable shape_error : Exn.
Variable find_optimal_budgets :
  @solver_call Matrix num Model Scaler →
  result Exn (@OptimizeResult num * num * list num).
Variables (n_weeks_to_predict : nat) (budget_to_allocate : num) (mmm : Model).
Variables (media_scaler target_scaler : Scaler) (prices : list num) (end_date : Z).
Variable media_names : list string.

(** X10. When the builder raises (the week column, the calendar or the scaler
    failed), the allocator raises the same exception whatever the solver is,
    and the page shows that error and no table. *)
Theorem covariate_failure_skips_solver (e : Exn) :
  add_holiday_columns_to_array OutOfBoundsDatetime US extra_scaler_transform
    end_date n_weeks_to_predict
  = Raise e →
  budget_allocator OutOfBoundsDatetime US extra_scaler_transform find_optimal_budgets
    n_weeks_to_predict budget_to_allocate mmm media_scaler target_scaler
    prices end_date = Raise e ∧
  run_budget_allocator OutOfBoundsDatetime US extra_scaler_transform mul add zero round2
    astype_float64 find_optimal_budgets shape_error
    n_weeks_to_predict budget_to_allocate mmm media_scaler target_scaler
    prices end_date media_names = Ok (ErrorMessage e).
Proof.
  intros Hb. unfold run_budget_allocator, budget_allocator. by rewrite Hb.
Qed.

(** X11. When the solver succeeds on vectors aligned with the prices but
    the list of channel names has another length, no table is shown: the
    page shows the shape error of the table construction. *)
Theorem misaligned_channel_names_show_error
    (extra : Matrix) (solution : @OptimizeResult num) (kpi : num)
    (previous : list num) :
  add_holiday_columns_to_array OutOfBoundsDatetime US extra_scaler_transform
    end_date n_weeks_to_predict
  = Ok extra →
  find_optimal_budgets
    (Build_solver_call n_weeks_to_predict mmm extra budget_to_allocate
       prices media_scaler target_scaler 0.05 0.95 1)
  = Ok (solution, kpi, previous) →
  length previous = length prices →
  length (x solution) = length prices →
  length media_names ≠ length prices →
  run_budget_allocator OutOfBoundsDatetime US extra_scaler_transform mul add zero round2
    astype_float64 find_optimal_budgets shape_error
    n_weeks_to_predict budget_to_allocate mmm media_scaler target_scaler
    prices end_date media_names = Ok (ErrorMessage shape_error).
Proof.
  intros Hb Hs Hp Hx Hm. unfold run_budget_allocator, budget_allocator.
  rewrite Hb. cbn [mbind result_bind]. rewrite Hs. cbn [mbind result_bind fst snd].
  unfold table_data. rewrite !array_mul_aligned by done. cbn [mbind result_bind].
  unfold data_frame3. rewrite decide_False; [done|].
  rewrite !length_fmap, !length_zip_with. lia.
Qed.

(** X12. When the solver succeeds and names, prices, solution and previous
    allocation are aligned, the page shows a table of one row per channel
    and a last row "Total": row i holds the name and the products of price
    and allocation rounded, converted to float64 and rounded again (optimal
    first, previous second); the last row holds the sums of the once-rounded
    vectors. *)
Theorem allocation_table_rows
    (extra : Matrix) (solution : @OptimizeResult num) (kpi : num)
    (previous : list num) :
  add_holiday_columns_to_array OutOfBoundsDatetime US extra_scaler_transform
    end_date n_weeks_to_predict
  = Ok extra →
  find_optimal_budgets
    (Build_solver_call n_weeks_to_predict mmm extra budget_to_allocate
       prices media_scaler target_scaler 0.05 0.95 1)
  = Ok (solution, kpi, previous) →
  length previous = length prices →
  length (x solution) = length prices →
  length media_names = length prices →
  ∃ t,
    run_budget_allocator OutOfBoundsDatetime US extra_scaler_transform mul add zero round2
      astype_float64 find_optimal_budgets shape_error
      n_weeks_to_predict budget_to_allocate mmm media_scaler target_scaler
      prices end_date media_names = Ok (Table t) ∧
    length t = S (length media_names) ∧
    (∀ (i : nat) m p a b,
       media_names !! i = Some m → prices !! i = Some p →
       x solution !! i = Some a → previous !! i = Some b →
       t !! i = Some (m, round2 (astype_float64 (round2 (mul p a))),
                         round2 (astype_float64 (round2 (mul p b))))) ∧
    t !! length media_names
    = Some ("Total", array_sum add zero (round2 <$> zip_with mul prices (x solution)),
                     array_sum add zero (round2 <$> zip_with mul prices previous)).
Proof.
  intros Hb Hs Hp Hx Hm. unfold run_budget_allocator, budget_allocator.
  rewrite Hb. cbn [mbind result_bind]. rewrite Hs. cbn [mbind result_bind fst snd].
  unfold table_data. rewrite !array_mul_aligned by done. cbn [mbind result_bind].
  unfold data_frame3. rewrite decide_True
    by (rewrite !length_fmap, !length_zip_with; lia).
  cbn [mbind result_bind snd]. eexists. split; [reflexivity|].
  match goal with |- length (?r ++ _) = _ ∧ _ => set (rows := r) end.
  assert (length rows = length media_names) as Hlen.
  { unfold rows. rewrite !length_fmap, !length_zip_with, !length_fmap,
      !length_zip_with. lia. }
  split; [rewrite length_app; simpl; lia|]. split.
  - intros i m p a b Hi Hpi Ha Hbi. rewrite lookup_app_l by (rewrite Hlen; by eapply lookup_lt_Some).
    unfold rows. rewrite !list_lookup_fmap, !lookup_zip_with, Hi. cbn [mbind option_bind].
    rewrite !list_lookup_fmap, !lookup_zip_with, Hpi, Ha, Hbi. reflexivity.
  - rewrite lookup_app_r by lia. by rewrite Hlen, Nat.sub_diag.
Qed.
End Allocation.

Lemma scaler_receives_rectangular_bits_witness :
  ∃ df, indicator_frame out_of_bounds us_calendar (Calendar.ymd 2023 12 10) 4 = Ok df ∧
    add_holiday_columns_to_array out_of_bounds us_calendar identity_scaler
      (Calendar.ymd 2023 12 10) 4
    = identity_scaler (Frame.rows df) ∧
    length (Frame.rows df) = 4%nat.
Proof.
  destruct (scaler_receives_rectangular_bits out_of_bounds us_calendar identity_scaler
              (Calendar.ymd 2023 12 10) 4 _ ltac:(timestamps) eq_refl)
    as (df & Hdf & Hb & Hn & _).
  exists df. split; [exact Hdf|]. split; [exact Hb | exact Hn].
Defined.

Lemma columns_are_distinct_holiday_features_witness :
  ∃ df, indicator_frame out_of_bounds us_calendar (Calendar.ymd 2023 12 10) 4 = Ok df ∧
    NoDup (Frame.columns df) ∧ ("week" ∉ Frame.columns df).
Proof.
  destruct (columns_are_distinct_holiday_features out_of_bounds us_calendar
              (Calendar.ymd 2023 12 10) 4 _ ltac:(timestamps) eq_refl)
    as (df & Hdf & Hnd & Hw & _).
  exists df. split; [exact Hdf|]. split; [exact Hnd | exact Hw].
Defined.

Lemma holiday_marks_the_row_of_its_week_witness :
  ∃ df, indicator_frame out_of_bounds us_calendar (Calendar.ymd 2023 12 10) 4 = Ok df ∧
    Frame.at_get 1 "hldy_christmas_day" df = Some 1.
Proof.
  apply (holiday_marks_the_row_of_its_week out_of_bounds us_calendar
           (Calendar.ymd 2023 12 10) 4 _
           (Calendar.ymd 2023 12 25) "Christmas Day" ltac:(timestamps) eq_refl).
  - by apply (list_elem_of_lookup_2 _ 12%nat).
  - split; apply Zle_bool_imp_le; reflexivity.
Defined.

Lemma us_labor_day_outside date name :
  (date, name) ∈ filter (fun it => Calendar.year_of it.1
                                   ∈ unique_years (Calendar.ymd 2023 12 10) 4)
                        us_holidays_2023_2024 →
  standardized_name name = "hldy_labor_day" →
  date < Calendar.ymd 2023 12 10 + 7 ∨
  Calendar.ymd 2023 12 10 + 7 * Z.of_nat 4 + 6 < date.
Proof.
  intros Hin Hname. vm_compute in Hin.
  repeat (apply elem_of_cons in Hin as [Hin|Hin];
          [injection Hin as -> ->;
           first [discriminate Hname | left; reflexivity | right; reflexivity]|]).
  by apply elem_of_nil in Hin.
Qed.

Lemma holiday_outside_the_windows_marks_nothing_witness :
  ∃ df, indicator_frame out_of_bounds us_calendar (Calendar.ymd 2023 12 10) 4 = Ok df ∧
    ∀ i, Frame.at_get i "hldy_labor_day" df ≠ Some 1.
Proof.
  destruct (holiday_outside_the_windows_marks_nothing out_of_bounds us_calendar
              (Calendar.ymd 2023 12 10) 4 _ "hldy_labor_day" ltac:(timestamps)
              eq_refl us_labor_day_outside) as (df & Hdf & _ & Hno).
  exists df. split; [exact Hdf | exact Hno].
Defined.

Lemma columns_in_order_of_first_date_witness :
  ∃ df, indicator_frame out_of_bounds us_calendar (Calendar.ymd 2023 12 10) 4 = Ok df ∧
    ∀ (i j : nat) c1 c2, (i < j)%nat →
      Frame.columns df !! i = Some c1 → Frame.columns df !! j = Some c2 →
      ∃ d1 n1, (d1, n1) ∈ us_holidays_2023_2024 ∧ standardized_name n1 = c1 ∧
        ∀ d2 n2, (d2, n2) ∈ us_holidays_2023_2024 →
                 standardized_name n2 = c2 → d1 ≤ d2.
Proof.
  exact (columns_in_order_of_first_date out_of_bounds us_calendar
           (Calendar.ymd 2023 12 10) 4 us_holidays_2023_2024
           ltac:(timestamps) eq_refl).
Defined.

Lemma covariate_failure_skips_solver_witness :
  budget_allocator out_of_bounds us_calendar rejecting_scaler keeping_solver
    2 1000%Q tt tt tt [2%Q; 5%Q] (Calendar.ymd 2023 12 31)
  = Raise "feature count mismatch" ∧
  run_budget_allocator out_of_bounds us_calendar rejecting_scaler Qmult Qplus 0%Q Qround2 id
    keeping_solver "shape mismatch" 2 1000%Q tt tt tt [2%Q; 5%Q]
    (Calendar.ymd 2023 12 31) ["tv"; "radio"]
  = Ok (ErrorMessage "feature count mismatch").
Proof.
  exact (covariate_failure_skips_solver out_of_bounds us_calendar rejecting_scaler
           Qmult Qplus 0%Q Qround2 id "shape mismatch" keeping_solver 2 1000%Q tt tt tt
           [2%Q; 5%Q] (Calendar.ymd 2023 12 31) ["tv"; "radio"]
           "feature count mismatch" ltac:(vm_compute; reflexivity)).
Defined.

Lemma misaligned_channel_names_show_error_witness :
  run_budget_allocator out_of_bounds us_calendar identity_scaler Qmult Qplus 0%Q Qround2 id
    keeping_solver "shape mismatch" 2 1000%Q tt tt tt [2%Q; 5%Q]
    (Calendar.ymd 2023 12 31) ["tv"]
  = Ok (ErrorMessage "shape mismatch").
Proof.
  exact (misaligned_channel_names_show_error out_of_bounds us_calendar identity_scaler
           Qmult Qplus 0%Q Qround2 id "shape mismatch" keeping_solver 2 1000%Q tt tt tt
           [2%Q; 5%Q] (Calendar.ymd 2023 12 31) ["tv"]
           [[0; 0; 0; 0; 0; 0; 0; 0; 0; 0; 0]; [0; 1; 0; 0; 0; 0; 0; 0; 0; 0; 0]]
           {| x := [2%Q; 5%Q]; fun_ := 1000%Q |} 1000%Q [2%Q; 5%Q]
           ltac:(vm_compute; reflexivity) eq_refl eq_refl eq_refl
           ltac:(discriminate)).
Defined.

Lemma allocation_table_rows_witness :
  ∃ t,
    run_budget_allocator out_of_bounds us_calendar identity_scaler Qmult Qplus 0%Q Qround2 id
      keeping_solver "shape mismatch" 2 1000%Q tt tt tt [2%Q; 5%Q]
      (Calendar.ymd 2023 12 31) ["tv"; "radio"] = Ok (Table t) ∧
    t !! 2%nat = Some ("Total", 29%Q, 29%Q).
Proof.
  destruct (allocation_table_rows out_of_bounds us_calendar identity_scaler Qmult Qplus
           0%Q Qround2 id "shape mismatch" keeping_solver 2 1000%Q tt tt tt
           [2%Q; 5%Q] (Calendar.ymd 2023 12 31) ["tv"; "radio"]
           [[0; 0; 0; 0; 0; 0; 0; 0; 0; 0; 0]; [0; 1; 0; 0; 0; 0; 0; 0; 0; 0; 0]]
           {| x := [2%Q; 5%Q]; fun_ := 1000%Q |} 1000%Q [2%Q; 5%Q]
           ltac:(vm_compute; reflexivity) eq_refl eq_refl eq_refl eq_refl)
    as (t & Ht & _ & _ & Htotal).
  exists t. split; [exact Ht | exact Htotal].
Defined.

(** X9. Within the range of timestamps, a retrieved item labelled
    "X (qualifier" whose date lies in the window of a week marks the column
    of "X" in the row of that week. *)
Theorem observed_date_marks_base_column {Exn : Type}
    (OutOfBoundsDatetime : Exn)
    (US : list Z → result Exn (list (Z * string)))
    (end_date : Z) (time_period : nat) (items : list (Z * string))
    (date : Z) (name qualifier : string) (i : nat) (w : Z) :
  Timestamp.within end_date time_period →
  US (unique_years end_date time_period) = Ok items →
  (date, name +:+ " (" +:+ qualifier) ∈ items →
  week_starts end_date time_period !! i = Some w →
  w ≤ date ≤ w + 6 →
  ∃ df, indicator_frame OutOfBoundsDatetime US end_date time_period = Ok df ∧
    Frame.at_get i (standardized_name name) df = Some 1.
Proof.
  intros Hrange HUS Hin Hi Hw.
  destruct (indicator_frame_marks OutOfBoundsDatetime US _ _ _ Hrange HUS)
    as (df & Hdf & Hmarks).
  exists df. split; [done|]. apply Hmarks.
  exists w, date, (name +:+ " (" +:+ qualifier).
  split; [done|]. split; [done|]. split; [|done].
  unfold standardized_name, standardized_body. by rewrite split_head_qualifier.
Qed.

Lemma observed_date_marks_base_column_witness :
  ∃ df, indicator_frame out_of_bounds us_calendar (Calendar.ymd 2023 10 29) 1 = Ok df ∧
    Frame.at_get 0 "hldy_veterans_day" df = Some 1.
Proof.
  apply (observed_date_marks_base_column out_of_bounds us_calendar
           (Calendar.ymd 2023 10 29) 1 _
           (Calendar.ymd 2023 11 10) "Veterans Day" "observed)" 0
           (Calendar.ymd 2023 11 5) ltac:(timestamps) eq_refl).
  - by apply (list_elem_of_lookup_2 _ 9%nat).
  - reflexivity.
  - split; apply Zle_bool_imp_le; reflexivity.
Defined.

(** ** Loading a model *)

Section LoaderFacts.
Context {Exn File Pipeline Obj Plot : Type}.
Variable KeyError : string → Exn.
Variable pickle_load : File → result Exn Pipeline.
Variable named_steps : Pipeline → gmap string Obj.
Variable plot_model_fit : Obj → Obj → result Exn Plot.
Variable plot_response_curves : Obj → Obj → result Exn Plot.
Variable plot_media_baseline_contribution_area_plot : Obj → Obj → Obj → result Exn Plot.

Let load : File → result Exn Loader.bundle :=
  Loader.load_model KeyError pickle_load named_steps plot_model_fit
    plot_response_curves plot_media_baseline_contribution_area_plot.

Lemma step_None (steps : gmap string Obj) k :
  steps !! k = None → Loader.step KeyError steps k = Raise (KeyError k).
Proof. intros H. unfold Loader.step. by rewrite H. Qed.

Lemma step_Some (steps : gmap string Obj) k v :
  steps !! k = Some v → Loader.step KeyError steps k = Ok v.
Proof. intros H. unfold Loader.step. by rewrite H. Qed.

Lemma first_missing_spec (steps : gmap string Obj) i k :
  Loader.first_missing steps = Some (i, k) →
  Loader.required_steps !! i = Some k ∧ steps !! k = None ∧
  Forall (fun y => is_Some (steps !! y)) (take i Loader.required_steps).
Proof.
  intros (Hi & Hnone & Hprev)%list_find_Some. split; [done|]. split; [done|].
  apply Forall_lookup_2. intros j y [Hy Hj]%lookup_take_Some.
  destruct (steps !! y) eqn:E; [done|]. by destruct (Hprev j y Hy Hj).
Qed.

Ltac read_step Hnone :=
  lazymatch goal with
  | |- mbind _ (Loader.step _ ?s ?k0) = _ =>
      first
        [ rewrite (step_None s k0 Hnone); reflexivity
        | match goal with
          | H : is_Some (s !! k0) |- _ =>
              let v := fresh "v" in let E := fresh "E" in
              destruct H as [v E]; rewrite (step_Some s k0 v E);
              cbn [mbind result_bind]
          end ]
  end.

(** X13. When the pipeline lacks one of the ten steps [load_model] reads,
    loading raises the [KeyError] of the first missing one in the order of
    lines 85-94, whatever the other steps and the plots are. *)
Theorem load_model_first_missing_step (model_file : File) (pipeline : Pipeline)
    (i : nat) (k : string) :
  pickle_load model_file = Ok pipeline →
  Loader.first_missing (named_steps pipeline) = Some (i, k) →
  load model_file = Raise (KeyError k).
Proof.
  intros Hp (Hi & Hnone & Hprev)%first_missing_spec.
  unfold load, Loader.load_model. rewrite Hp. cbn [mbind result_bind].
  unfold Loader.required_steps in Hi, Hprev.
  do 10 (destruct i as [|i];
         [ injection Hi as <-; cbn [take] in Hprev;
           repeat (apply Forall_cons in Hprev as [? Hprev]);
           repeat read_step Hnone | ]).
  done.
Qed.
(** X14. A successful load needs all ten steps (also "cost_scaler", which
    nothing reads afterwards); its result holds the objects stored under
    them, the channel names coming from the step "channel_names", and the
    three plots drawn from the model, the target scaler and the channel
    names. *)
Theorem load_model_returns_steps (model_file : File) (b : Loader.bundle) :
  load model_file = Ok b →
  ∃ pipeline, pickle_load model_file = Ok pipeline ∧
    Loader.first_missing (named_steps pipeline) = None ∧
    named_steps pipeline !! "name_model" = Some (Loader.name_model b) ∧
    named_steps pipeline !! "start_date" = Some (Loader.start_date b) ∧
    named_steps pipeline !! "end_date" = Some (Loader.end_date b) ∧
    named_steps pipeline !! "media_scaler" = Some (Loader.media_scaler b) ∧
    named_steps pipeline !! "target_scaler" = Some (Loader.target_scaler b) ∧
    named_steps pipeline !! "channel_names" = Some (Loader.media_names b) ∧
    named_steps pipeline !! "cost_scaler" = Some (Loader.cost_scaler b) ∧
    named_steps pipeline !! "extra_scaler" = Some (Loader.extra_scaler b) ∧
    named_steps pipeline !! "prices" = Some (Loader.prices b) ∧
    named_steps pipeline !! "mmm" = Some (Loader.mmm b) ∧
    plot_model_fit (Loader.mmm b) (Loader.target_scaler b) = Ok (Loader.plot1 b) ∧
    plot_response_curves (Loader.mmm b) (Loader.target_scaler b)
    = Ok (Loader.plot2 b) ∧
    plot_media_baseline_contribution_area_plot (Loader.mmm b)
      (Loader.target_scaler b) (Loader.media_names b) = Ok (Loader.plot3 b).
Proof.
  unfold load, Loader.load_model. intros H.
  destruct (pickle_load model_file) as [pipeline| |]; [|done..].
  exists pipeline. split; [done|]. cbn [mbind result_bind] in H.
  unfold Loader.step in H.
  repeat (match type of H with
          | context [named_steps pipeline !! ?k0] =>
              destruct (named_steps pipeline !! k0) as [?v|] eqn:?E; [|done];
              cbn [mbind result_bind] in H
          end).
  repeat (match type of H with
          | mbind _ ?call = _ =>
              destruct call as [?p| |] eqn:?P; [|done..];
              cbn [mbind result_bind] in H
          end).
  injection H as <-. split.
  { unfold Loader.first_missing, Loader.required_steps. apply list_find_None.
    repeat (apply Forall_cons; split; [congruence|]). apply Forall_nil_2. }
  cbn. repeat split; done.
Qed.
End LoaderFacts.

Lemma load_model_first_missing_step_witness :
  demo_load "cost_scaler" = Raise "KeyError cost_scaler".
Proof.
  exact (load_model_first_missing_step (fun k => "KeyError " +:+ k)
           (fun f : gmap string string => Ok f) (fun p => p)
           (fun m t => Ok "fit") (fun m t => Ok "curves") (fun m t c => Ok "baseline")
           (demo_steps "cost_scaler") (demo_steps "cost_scaler") 6 "cost_scaler"
           eq_refl ltac:(vm_compute; reflexivity)).
Defined.

Lemma load_model_returns_steps_witness :
  ∃ pipeline : gmap string string,
    (Ok (demo_steps "none") : result string _) = Ok pipeline ∧
    Loader.first_missing pipeline = None ∧
    pipeline !! "name_model" = Some "the name_model".
Proof.
  destruct (load_model_returns_steps (fun k => "KeyError " +:+ k)
              (fun f : gmap string string => Ok f) (fun p => p)
              (fun m t => Ok "fit") (fun m t => Ok "curves")
              (fun m t c => Ok "baseline") (demo_steps "none")
              {| Loader.name_model := "the name_model";
                 Loader.start_date := "the start_date";
                 Loader.end_date := "the end_date";
                 Loader.media_scaler := "the media_scaler";
                 Loader.target_scaler := "the target_scaler";
                 Loader.media_names := "the channel_names";
                 Loader.cost_scaler := "the cost_scaler";
                 Loader.extra_scaler := "the extra_scaler";
                 Loader.prices := "the prices";
                 Loader.mmm := "the mmm";
                 Loader.plot1 := "fit"; Loader.plot2 := "curves";
                 Loader.plot3 := "baseline" |}
              ltac:(vm_compute; reflexivity))
    as (pipeline & Hp & Hm & Hn & _).
  exists pipeline. split; [exact Hp|]. split; [exact Hm | exact Hn].
Defined.
